(** * Archive-then-replace upsert pipelines of the CPT automation scripts

    A shallow embedding of the Supabase handler classes

      - [Fair_Health_Facility/database.py]    ([SupabaseHandlerFairHealth])
      - [Fair_Health_Physicians/database.py]  ([SupabaseHandlerPhysician])
      - [Medicare_Clinical_Fees/database.py]  ([SupabaseHandlerCLFS])
      - [New_Jersey_DOBI/database.py]         ([SupabaseHandler])

    and of [DataProcessorASC.clean_data] from
    [Medicare_ASC_Addenda/data_processor.py].

    The remote Supabase client is an interface ([Store]): every
    [.execute()] is a request whose response (a list of rows, or a raised
    exception) is decided by the store.  A handler runs in a state-and-
    exception monad over a [world] that holds the store, the trace of the
    requests issued so far together with their responses, the ERROR-level
    lines written to the process logger, and the wall clock.

    Of the calls to [logger] only those at ERROR level are kept: the
    INFO and WARNING lines report progress, read nothing but values the
    handler already holds, and decide nothing.  This is also why the
    [success] flag of [_log_operation], which picks the icon of an INFO
    line, goes unused. *)

From stdpp Require Import gmap strings list fin_maps pretty.
From Stdlib Require Import Ascii.

Local Open Scope stdpp_scope.

(** ** Python values, records and exceptions *)

(** Scalars of a row or of a result dictionary.  A finite float is the
    dyadic rational [m * 2 ^ e]. *)
Inductive value :=
| VNone
| VBool (b : bool)
| VInt (z : Z)
| VFloat (m e : Z)
| VStr (s : string).

(** [Dict]: a row of a table, a log entry, a result summary. *)
Abbreviation Dict := (gmap string value).

(** Exceptions below [Exception].  [APIError] (postgrest) carries the
    attributes the handlers read; [str_e] is what [str(e)] returns.  Any
    other exception is known by its class name and its [str(e)]. *)
Inductive exn :=
| APIError (message details hint str_e : string)
| PyExc (cls : string) (str_e : string).

Definition str (e : exn) : string :=
  match e with
  | APIError _ _ _ s => s
  | PyExc _ s => s
  end.

(** [Exception(msg)] *)
Definition Exception (msg : string) : exn := PyExc "Exception" msg.

Inductive outcome (A : Type) :=
| Return (a : A)
| Raise (e : exn).
Arguments Return {A} a.
Arguments Raise {A} e.

(** ** The store client *)

(** [.eq(col, v)] and [.in_(col, vs)] *)
Inductive row_filter :=
| eq_ (column : string) (v : string)
| in_ (column : string) (vs : list string).

(** [.insert(rows)] takes a list of dictionaries or a single dictionary. *)
Inductive payload :=
| Rows (rows : list Dict)
| Row (row : Dict).

(** A query built on [client.table(t)] and sent by [.execute()]. *)
Inductive request :=
| Select (table : string) (columns : string) (f : row_filter)
| Insert (table : string) (p : payload)
| Delete (table : string) (f : row_filter).

(** [response.data], or the exception [.execute()] raised. *)
Abbreviation response := (outcome (list Dict)).

Class Store := {
  St : Type;
  exec : request → St → response * St
}.

Definition event : Type := request * response.

Record world `{Store} := World {
  store : St;
  trace : list event;
  console : list string;
  clock : string
}.

Definition M `{Store} (A : Type) : Type := world → outcome A * world.

Section monad.
Context `{Store}.

Definition ret {A} (a : A) : M A := λ w, (Return a, w).

Definition raise {A} (e : exn) : M A := λ w, (Raise e, w).

Definition bind {A B} (m : M A) (k : A → M B) : M B :=
  λ w, match m w with
       | (Return a, w') => k a w'
       | (Raise e, w') => (Raise e, w')
       end.

(** [try: m  except Exception as e: h e] *)
Definition try_except {A} (m : M A) (h : exn → M A) : M A :=
  λ w, match m w with
       | (Return a, w') => (Return a, w')
       | (Raise e, w') => h e w'
       end.

(** [query.execute()] *)
Definition execute (q : request) : M (list Dict) :=
  λ w, let '(r, s) := exec q (store w) in
       (r, World _ s (trace w ++ [(q, r)]) (console w) (clock w)).

(** [logger.error(line)] *)
Definition logger_error (line : string) : M unit :=
  λ w, (Return tt, World _ (store w) (trace w) (console w ++ [line]) (clock w)).

(** [datetime.now().strftime("%B %d, %Y at %I:%M %p")] *)
Definition now_strftime : M string := λ w, (Return (clock w), w).
End monad.

Notation "x <- m ;; k" := (bind m (λ x, k))
  (at level 100, m at next level, right associativity, only parsing).
Notation "m ;;; k" := (bind m (λ _, k))
  (at level 100, right associativity, only parsing).

(** ** Formatting *)

(** Digits of [format(n, ",")], least significant first. *)
Fixpoint group_thousands (rev_digits : list ascii) : list ascii :=
  match rev_digits with
  | a :: b :: c :: ((_ :: _) as rest) =>
      a :: b :: c :: ","%char :: group_thousands rest
  | _ => rev_digits
  end.

(** [f"{n:,}"] *)
Definition fmt_comma (n : nat) : string :=
  String.string_of_list_ascii
    (rev (group_thousands (rev (String.list_ascii_of_string (pretty n))))).

(** [{k: v for k, v in record.items() if k != 'id'}] *)
Definition historical_record (record : Dict) : Dict :=
  filter (λ kv, kv.1 ≠ "id") record.

(** The loop [for record in existing_records:
    records_for_history.append(historical_record)]. *)
Definition records_for_history (existing_records : list Dict) : list Dict :=
  foldl (λ acc record, acc ++ [historical_record record]) [] existing_records.

(** [len(response.data) if response.data else 0] *)
Definition len_or_0 (data : list Dict) : nat :=
  match data with
  | [] => 0
  | _ :: _ => length data
  end.

(** ** Fair Health Facility *)
Module FairHealthFacility.
Definition updated_table : string := "updated_medical_benchmarking_data".
Definition historical_table : string := "historical_medical_benchmarking_data".
Definition logging_table : string := "logging_table".
Definition script_name : string := "Fairhealth Facility".
Definition data_types : list string :=
  ["Facility USA"; "Facility 070"; "Facility 074"].

Section handler.
Context `{Store}.

Definition _create_log_message (archived_count inserted_count : nat) : M string :=
  timestamp <- now_strftime;;
  if 0 <? archived_count then
    ret (script_name +:+ ": Archived " +:+ fmt_comma archived_count
         +:+ " old records and inserted " +:+ fmt_comma inserted_count
         +:+ " new records (" +:+ timestamp +:+ ")")
  else
    ret (script_name +:+ ": Inserted " +:+ fmt_comma inserted_count
         +:+ " new records (" +:+ timestamp +:+ ")").

Definition _log_operation (message : string) (success : bool) : M unit :=
  try_except
    (let log_entry : Dict :=
       {[ "script" := VStr script_name; "message" := VStr message ]} in
     execute (Insert logging_table (Row log_entry));;;
     ret tt)
    (λ e, logger_error ("⚠️ Failed to write to logging_table: " +:+ str e)).

Definition insert_records (records : list Dict) : M Dict :=
  match records with
  | [] =>
      ret {[ "status" := VStr "no_records";
             "records_inserted" := VInt 0;
             "table" := VStr updated_table;
             "records_archived" := VInt 0 ]}
  | _ :: _ =>
      try_except
        (existing_records <-
           execute (Select updated_table "*" (in_ "data_type" data_types));;
         let records_to_archive := length existing_records in
         (if 0 <? records_to_archive then
            execute (Insert historical_table
                       (Rows (records_for_history existing_records)));;;
            ret tt
          else ret tt);;;
         (if 0 <? records_to_archive then
            execute (Delete updated_table (in_ "data_type" data_types));;;
            ret tt
          else ret tt);;;
         response <- execute (Insert updated_table (Rows records));;
         let actual_inserted := len_or_0 response in
         log_message <- _create_log_message records_to_archive actual_inserted;;
         _log_operation log_message true;;;
         ret {[ "status" := VStr "success";
                "records_inserted" := VInt (Z.of_nat actual_inserted);
                "records_archived" := VInt (Z.of_nat records_to_archive);
                "table" := VStr updated_table ]})
        (λ e,
           match e with
           | APIError message details _ _ =>
               let error_msg :=
                 "API Error: " +:+ message +:+ " (Details: " +:+ details +:+ ")" in
               logger_error ("❌ " +:+ error_msg);;;
               _log_operation ("Failed: " +:+ error_msg) false;;;
               raise e
           | PyExc _ _ =>
               let error_msg := "Unexpected Error: " +:+ str e in
               logger_error ("❌ " +:+ error_msg);;;
               _log_operation ("Failed: " +:+ error_msg) false;;;
               raise e
           end)
  end.
End handler.
End FairHealthFacility.

(** ** Fair Health Physicians *)
Module FairHealthPhysicians.
Definition updated_table : string := "updated_medical_benchmarking_data".
Definition historical_table : string := "historical_medical_benchmarking_data".
Definition logging_table : string := "logging_table".
Definition script_name : string := "Fairhealth Physician".
Definition data_types : list string := ["Physician USA"; "Physician 070"].

Section handler.
Context `{Store}.

Definition _create_log_message (archived_count inserted_count : nat) : M string :=
  timestamp <- now_strftime;;
  if 0 <? archived_count then
    ret (script_name +:+ ": Archived " +:+ fmt_comma archived_count
         +:+ " old records and inserted " +:+ fmt_comma inserted_count
         +:+ " new records (" +:+ timestamp +:+ ")")
  else
    ret (script_name +:+ ": Inserted " +:+ fmt_comma inserted_count
         +:+ " new records (" +:+ timestamp +:+ ")").

Definition _log_operation (message : string) (success : bool) : M unit :=
  try_except
    (let log_entry : Dict :=
       {[ "script" := VStr script_name; "message" := VStr message ]} in
     execute (Insert logging_table (Row log_entry));;;
     ret tt)
    (λ e, logger_error ("⚠️ Failed to write to logging_table: " +:+ str e)).

Definition insert_records (records : list Dict) : M Dict :=
  match records with
  | [] =>
      ret {[ "records_inserted" := VInt 0;
             "records_archived" := VInt 0;
             "table" := VStr updated_table;
             "status" := VStr "no_records" ]}
  | _ :: _ =>
      try_except
        (existing_records <-
           execute (Select updated_table "*" (in_ "data_type" data_types));;
         let records_to_archive := length existing_records in
         (if 0 <? records_to_archive then
            execute (Insert historical_table
                       (Rows (records_for_history existing_records)));;;
            ret tt
          else ret tt);;;
         (if 0 <? records_to_archive then
            execute (Delete updated_table (in_ "data_type" data_types));;;
            ret tt
          else ret tt);;;
         response <- execute (Insert updated_table (Rows records));;
         let inserted_count := len_or_0 response in
         log_message <- _create_log_message records_to_archive inserted_count;;
         _log_operation log_message true;;;
         ret {[ "records_inserted" := VInt (Z.of_nat inserted_count);
                "records_archived" := VInt (Z.of_nat records_to_archive);
                "table" := VStr updated_table;
                "success" := VBool true ]})
        (λ e,
           let error_msg :=
             "Failed to process " +:+ script_name +:+ ": " +:+ str e in
           logger_error ("❌ " +:+ error_msg);;;
           logger_error "Full traceback:";;;
           _log_operation ("FAILED: " +:+ error_msg) false;;;
           raise e)
  end.
End handler.
End FairHealthPhysicians.

(** ** Medicare Clinical Fees (CLFS) *)
Module MedicareClinicalFees.
Definition updated_table : string := "updated_medical_benchmarking_data".
Definition historical_table : string := "historical_medical_benchmarking_data".
Definition logging_table : string := "logging_table".
Definition script_name : string := "Medicare Clinical Fees".
Definition data_type : string := "Medicare Lab".

Section handler.
Context `{Store}.

Definition _create_log_message (archived_count inserted_count : nat) : M string :=
  timestamp <- now_strftime;;
  if 0 <? archived_count then
    ret (script_name +:+ ": Archived " +:+ fmt_comma archived_count
         +:+ " old records and inserted " +:+ fmt_comma inserted_count
         +:+ " new records (" +:+ timestamp +:+ ")")
  else
    ret (script_name +:+ ": Inserted " +:+ fmt_comma inserted_count
         +:+ " new records (" +:+ timestamp +:+ ")").

Definition _log_operation (message : string) (success : bool) : M unit :=
  try_except
    (let log_entry : Dict :=
       {[ "message" := VStr message; "script" := VStr script_name ]} in
     execute (Insert logging_table (Row log_entry));;;
     ret tt)
    (λ e, logger_error ("⚠️ Failed to write log entry: " +:+ str e)).

Definition insert_records (records : list Dict) : M Dict :=
  match records with
  | [] =>
      ret {[ "status" := VStr "no_records";
             "records_inserted" := VInt 0;
             "table" := VStr updated_table;
             "records_archived" := VInt 0;
             "records_deleted" := VInt 0 ]}
  | _ :: _ =>
      try_except
        (existing_records <-
           execute (Select updated_table "*" (eq_ "data_type" data_type));;
         let records_to_archive := length existing_records in
         (if 0 <? records_to_archive then
            execute (Insert historical_table
                       (Rows (records_for_history existing_records)));;;
            ret tt
          else ret tt);;;
         (if 0 <? records_to_archive then
            execute (Delete updated_table (eq_ "data_type" data_type));;;
            ret tt
          else ret tt);;;
         let records_to_insert := length records in
         response <- execute (Insert updated_table (Rows records));;
         log_message <- _create_log_message records_to_archive records_to_insert;;
         _log_operation log_message true;;;
         ret {[ "status" := VStr "success";
                "records_inserted" := VInt (Z.of_nat records_to_insert);
                "records_archived" := VInt (Z.of_nat records_to_archive);
                "records_deleted" := VInt (Z.of_nat records_to_archive);
                "table" := VStr updated_table;
                "script_name" := VStr script_name ]})
        (λ e,
           let error_message :=
             "Failed to process " +:+ script_name +:+ ": " +:+ str e in
           logger_error ("❌ " +:+ error_message);;;
           _log_operation error_message false;;;
           raise (Exception error_message))
  end.
End handler.
End MedicareClinicalFees.

(** ** New Jersey DOBI *)
Module NewJerseyDOBI.
Definition updated_table : string := "updated_medical_benchmarking_data".
Definition historical_table : string := "historical_medical_benchmarking_data".
Definition logging_table : string := "logging_table".
Definition script_name : string := "New Jersey DOBI".
Definition data_types : list string := ["Facility PIP"; "Physician PIP"].

Section handler.
Context `{Store}.

Definition _create_log_message (archived_count inserted_count : nat) : M string :=
  timestamp <- now_strftime;;
  if 0 <? archived_count then
    ret (script_name +:+ ": Archived " +:+ fmt_comma archived_count
         +:+ " old records and inserted " +:+ fmt_comma inserted_count
         +:+ " new records (" +:+ timestamp +:+ ")")
  else
    ret (script_name +:+ ": Inserted " +:+ fmt_comma inserted_count
         +:+ " new records (" +:+ timestamp +:+ ")").

Definition _log_operation (message : string) (success : bool) : M unit :=
  try_except
    (let log_entry : Dict :=
       {[ "message" := VStr message; "script" := VStr script_name ]} in
     execute (Insert logging_table (Row log_entry));;;
     ret tt)
    (λ e, logger_error ("⚠️ Failed to write log entry: " +:+ str e)).

Definition insert_records (records : list Dict) : M Dict :=
  match records with
  | [] =>
      ret {[ "status" := VStr "no_records";
             "records_inserted" := VInt 0;
             "table" := VStr updated_table;
             "records_archived" := VInt 0;
             "records_deleted" := VInt 0 ]}
  | _ :: _ =>
      try_except
        (existing_records <-
           execute (Select updated_table "*" (in_ "data_type" data_types));;
         let records_to_archive := length existing_records in
         (if 0 <? records_to_archive then
            execute (Insert historical_table
                       (Rows (records_for_history existing_records)));;;
            ret tt
          else ret tt);;;
         (if 0 <? records_to_archive then
            execute (Delete updated_table (in_ "data_type" data_types));;;
            ret tt
          else ret tt);;;
         let records_to_insert := length records in
         response <- execute (Insert updated_table (Rows records));;
         log_message <- _create_log_message records_to_archive records_to_insert;;
         _log_operation log_message true;;;
         ret {[ "status" := VStr "success";
                "records_inserted" := VInt (Z.of_nat records_to_insert);
                "records_archived" := VInt (Z.of_nat records_to_archive);
                "records_deleted" := VInt (Z.of_nat records_to_archive);
                "table" := VStr updated_table;
                "script_name" := VStr script_name ]})
        (λ e,
           match e with
           | APIError message details hint _ =>
               let error_message :=
                 "Failed to process " +:+ script_name
                 +:+ ": API Error - " +:+ message in
               logger_error ("❌ " +:+ error_message);;;
               logger_error ("    Details: " +:+ details);;;
               logger_error ("    Hint: " +:+ hint);;;
               _log_operation error_message false;;;
               raise e
           | PyExc _ _ =>
               let error_message :=
                 "Failed to process " +:+ script_name +:+ ": " +:+ str e in
               logger_error ("❌ " +:+ error_message);;;
               _log_operation error_message false;;;
               raise (Exception error_message)
           end)
  end.
End handler.
End NewJerseyDOBI.

(** ** A scripted store

    A test double of the client: the state is the queue of responses still
    to be served, one per [.execute()]; once the queue is empty every
    request succeeds with no rows. *)
#[export] Instance ScriptedStore : Store := {|
  St := list response;
  exec _ q := match q with
              | [] => (Return [], [])
              | r :: q' => (r, q')
              end
|}.

Definition scripted (q : list response) (t : string) : @world ScriptedStore :=
  World ScriptedStore q [] [] t.

(** ** Observations of a run *)

Section observations.
Context `{Store}.

(** The events a computation adds to the trace of [w]. *)
Definition events_of {A} (m : M A) (w : world) : list event :=
  drop (length (trace w)) (trace (m w).2).

(** The ERROR lines a computation adds to the console of [w]. *)
Definition lines_of {A} (m : M A) (w : world) : list string :=
  drop (length (console w)) (console (m w).2).

Definition result_of {A} (m : M A) (w : world) : outcome A := (m w).1.
End observations.

Definition is_log_write (ev : event) : bool :=
  match ev.1 with
  | Insert _ (Row _) => true
  | _ => false
  end.

Definition raised {A} (o : outcome A) : bool :=
  match o with
  | Raise _ => true
  | Return _ => false
  end.

(** What distinguishes one handler class from another. *)
Record profile := Profile {
  p_script : string;
  p_filter : row_filter;
  p_entry : string → Dict;
  p_sink_line : exn → string;
  p_count : list Dict → list Dict → nat;
  p_no_records : Dict;
  p_success : nat → nat → Dict;
  p_err_lines : exn → list string;
  p_err_msg : exn → string;
  p_err_raise : exn → exn
}.

Definition live_table : string := "updated_medical_benchmarking_data".
Definition archive_table : string := "historical_medical_benchmarking_data".
Definition log_table : string := "logging_table".

Definition create_log_message (script : string) (archived inserted : nat)
    (timestamp : string) : string :=
  if 0 <? archived then
    script +:+ ": Archived " +:+ fmt_comma archived
    +:+ " old records and inserted " +:+ fmt_comma inserted
    +:+ " new records (" +:+ timestamp +:+ ")"
  else
    script +:+ ": Inserted " +:+ fmt_comma inserted
    +:+ " new records (" +:+ timestamp +:+ ")".

Section shapes.
Variable P : profile.
Variable records : list Dict.
Variable t : string.

Definition sel : request := Select live_table "*" (p_filter P).
Definition arch (existing : list Dict) : request :=
  Insert archive_table (Rows (records_for_history existing)).
Definition del : request := Delete live_table (p_filter P).
Definition ins : request := Insert live_table (Rows records).
Definition log (msg : string) : request := Insert log_table (Row (p_entry P msg)).

Definition sink_lines (lr : response) : list string :=
  match lr with
  | Return _ => []
  | Raise e => [p_sink_line P e]
  end.

Definition failed (body : list event) (e : exn) (lr : response)
    : list event * list string * outcome Dict :=
  (body ++ [(log (p_err_msg P e), lr)],
   p_err_lines P e ++ sink_lines lr,
   Raise (p_err_raise P e)).

Definition succeeded (body : list event) (archived : nat) (data : list Dict)
    (lr : response) : list event * list string * outcome Dict :=
  let n := p_count P records data in
  (body ++ [(log (create_log_message (p_script P) archived n t), lr)],
   sink_lines lr,
   Return (p_success P archived n)).

(** The runs of a handler: the events it sends, the ERROR lines it
    prints and its outcome, by how far the [try] block got. *)
Inductive shape : list event * list string * outcome Dict → Prop :=
| no_records :
    records = [] →
    shape ([], [], Return (p_no_records P))
| select_raised e lr :
    records ≠ [] →
    shape (failed [(sel, Raise e)] e lr)
| archive_raised x ex e lr :
    records ≠ [] →
    shape (failed [(sel, Return (x :: ex)); (arch (x :: ex), Raise e)] e lr)
| delete_raised x ex d e lr :
    records ≠ [] →
    shape (failed [(sel, Return (x :: ex)); (arch (x :: ex), Return d);
                   (del, Raise e)] e lr)
| insert_raised_fresh e lr :
    records ≠ [] →
    shape (failed [(sel, Return []); (ins, Raise e)] e lr)
| insert_raised x ex d d' e lr :
    records ≠ [] →
    shape (failed [(sel, Return (x :: ex)); (arch (x :: ex), Return d);
                   (del, Return d'); (ins, Raise e)] e lr)
| inserted_fresh data lr :
    records ≠ [] →
    shape (succeeded [(sel, Return []); (ins, Return data)] 0 data lr)
| replaced x ex d d' data lr :
    records ≠ [] →
    shape (succeeded [(sel, Return (x :: ex)); (arch (x :: ex), Return d);
                      (del, Return d'); (ins, Return data)]
             (length (x :: ex)) data lr).
End shapes.

(** A handler follows a profile when each of its runs adds to the trace
    and to the console as one of the profile's shapes says. *)
Definition follows `{Store} (P : profile) (run : list Dict → M Dict) : Prop :=
  ∀ records w,
    shape P records (clock w)
      (events_of (run records) w, lines_of (run records) w,
       result_of (run records) w).

Definition facility : profile := {|
  p_script := FairHealthFacility.script_name;
  p_filter := in_ "data_type" FairHealthFacility.data_types;
  p_entry message :=
    {[ "script" := VStr FairHealthFacility.script_name; "message" := VStr message ]};
  p_sink_line e := "⚠️ Failed to write to logging_table: " +:+ str e;
  p_count _ data := len_or_0 data;
  p_no_records :=
    {[ "status" := VStr "no_records"; "records_inserted" := VInt 0;
       "table" := VStr live_table; "records_archived" := VInt 0 ]};
  p_success archived inserted :=
    {[ "status" := VStr "success";
       "records_inserted" := VInt (Z.of_nat inserted);
       "records_archived" := VInt (Z.of_nat archived);
       "table" := VStr live_table ]};
  p_err_lines e :=
    match e with
    | APIError message details _ _ =>
        ["❌ " +:+ "API Error: " +:+ message +:+ " (Details: " +:+ details +:+ ")"]
    | PyExc _ _ => ["❌ " +:+ "Unexpected Error: " +:+ str e]
    end;
  p_err_msg e :=
    match e with
    | APIError message details _ _ =>
        "Failed: " +:+ "API Error: " +:+ message +:+ " (Details: " +:+ details +:+ ")"
    | PyExc _ _ => "Failed: " +:+ "Unexpected Error: " +:+ str e
    end;
  p_err_raise e := e
|}.

Definition physicians : profile := {|
  p_script := FairHealthPhysicians.script_name;
  p_filter := in_ "data_type" FairHealthPhysicians.data_types;
  p_entry message :=
    {[ "script" := VStr FairHealthPhysicians.script_name; "message" := VStr message ]};
  p_sink_line e := "⚠️ Failed to write to logging_table: " +:+ str e;
  p_count _ data := len_or_0 data;
  p_no_records :=
    {[ "records_inserted" := VInt 0; "records_archived" := VInt 0;
       "table" := VStr live_table; "status" := VStr "no_records" ]};
  p_success archived inserted :=
    {[ "records_inserted" := VInt (Z.of_nat inserted);
       "records_archived" := VInt (Z.of_nat archived);
       "table" := VStr live_table;
       "success" := VBool true ]};
  p_err_lines e :=
    ["❌ " +:+ "Failed to process " +:+ FairHealthPhysicians.script_name
       +:+ ": " +:+ str e;
     "Full traceback:"];
  p_err_msg e :=
    "FAILED: " +:+ "Failed to process " +:+ FairHealthPhysicians.script_name
      +:+ ": " +:+ str e;
  p_err_raise e := e
|}.

Definition clinical_fees : profile := {|
  p_script := MedicareClinicalFees.script_name;
  p_filter := eq_ "data_type" MedicareClinicalFees.data_type;
  p_entry message :=
    {[ "message" := VStr message; "script" := VStr MedicareClinicalFees.script_name ]};
  p_sink_line e := "⚠️ Failed to write log entry: " +:+ str e;
  p_count records _ := length records;
  p_no_records :=
    {[ "status" := VStr "no_records"; "records_inserted" := VInt 0;
       "table" := VStr live_table; "records_archived" := VInt 0;
       "records_deleted" := VInt 0 ]};
  p_success archived inserted :=
    {[ "status" := VStr "success";
       "records_inserted" := VInt (Z.of_nat inserted);
       "records_archived" := VInt (Z.of_nat archived);
       "records_deleted" := VInt (Z.of_nat archived);
       "table" := VStr live_table;
       "script_name" := VStr MedicareClinicalFees.script_name ]};
  p_err_lines e :=
    ["❌ " +:+ "Failed to process " +:+ MedicareClinicalFees.script_name
       +:+ ": " +:+ str e];
  p_err_msg e :=
    "Failed to process " +:+ MedicareClinicalFees.script_name +:+ ": " +:+ str e;
  p_err_raise e :=
    Exception ("Failed to process " +:+ MedicareClinicalFees.script_name
               +:+ ": " +:+ str e)
|}.

Definition dobi : profile := {|
  p_script := NewJerseyDOBI.script_name;
  p_filter := in_ "data_type" NewJerseyDOBI.data_types;
  p_entry message :=
    {[ "message" := VStr message; "script" := VStr NewJerseyDOBI.script_name ]};
  p_sink_line e := "⚠️ Failed to write log entry: " +:+ str e;
  p_count records _ := length records;
  p_no_records :=
    {[ "status" := VStr "no_records"; "records_inserted" := VInt 0;
       "table" := VStr live_table; "records_archived" := VInt 0;
       "records_deleted" := VInt 0 ]};
  p_success archived inserted :=
    {[ "status" := VStr "success";
       "records_inserted" := VInt (Z.of_nat inserted);
       "records_archived" := VInt (Z.of_nat archived);
       "records_deleted" := VInt (Z.of_nat archived);
       "table" := VStr live_table;
       "script_name" := VStr NewJerseyDOBI.script_name ]};
  p_err_lines e :=
    match e with
    | APIError message details hint _ =>
        ["❌ " +:+ "Failed to process " +:+ NewJerseyDOBI.script_name
           +:+ ": API Error - " +:+ message;
         "    Details: " +:+ details;
         "    Hint: " +:+ hint]
    | PyExc _ _ =>
        ["❌ " +:+ "Failed to process " +:+ NewJerseyDOBI.script_name
           +:+ ": " +:+ str e]
    end;
  p_err_msg e :=
    match e with
    | APIError message _ _ _ =>
        "Failed to process " +:+ NewJerseyDOBI.script_name
          +:+ ": API Error - " +:+ message
    | PyExc _ _ =>
        "Failed to process " +:+ NewJerseyDOBI.script_name +:+ ": " +:+ str e
    end;
  p_err_raise e :=
    match e with
    | APIError _ _ _ _ => e
    | PyExc _ _ =>
        Exception ("Failed to process " +:+ NewJerseyDOBI.script_name
                   +:+ ": " +:+ str e)
    end
|}.

(** ** Properties of a run *)

Definition column_of (f : row_filter) : string :=
  match f with
  | eq_ c _ => c
  | in_ c _ => c
  end.

Definition is_api_error (e : exn) : bool :=
  match e with
  | APIError _ _ _ _ => true
  | PyExc _ _ => false
  end.

(** Archive before delete: a delete is sent to the live table only, with
    the [data_type] filter of the initial select, and after an insert into
    the historical table that returned; once an insert into the
    historical table raises, the run raises and sends no delete. *)
Definition archive_before_delete (evs : list event) (out : outcome Dict) : Prop :=
  (∀ i tbl f r, evs !! i = Some (Delete tbl f, r) →
     tbl = live_table ∧ column_of f = "data_type"
     ∧ (∃ existing, evs !! 0 = Some (Select live_table "*" f, Return existing))
     ∧ ∃ j rows d, j < i
         ∧ evs !! j = Some (Insert archive_table (Rows rows), Return d))
  ∧ (∀ j p e, evs !! j = Some (Insert archive_table p, Raise e) →
       raised out = true
       ∧ ∀ i tbl f r, evs !! i ≠ Some (Delete tbl f, r)).

(** The count the store reports for a bulk insert: the number of rows in
    its response, and the requested count when the response has none. *)
Definition reported_count (requested : nat) (data : list Dict) : nat :=
  match data with
  | [] => requested
  | _ :: _ => length data
  end.

(** [records_inserted] of the summary a run returns is [count data], for
    [data] the response to the insert of [records] into the live table. *)
Definition records_inserted_is (count : list Dict → nat) (records : list Dict)
    (evs : list event) (out : outcome Dict) : Prop :=
  ∀ result data,
    out = Return result →
    (Insert live_table (Rows records), Return data) ∈ evs →
    result !! "records_inserted" = Some (VInt (Z.of_nat (count data))).

(** The short circuit: the summary says [no_records] with both counts 0,
    nothing is sent, nothing is printed, and the store is as it was. *)
Definition short_circuit `{Store} (m : M Dict) (w : world) : Prop :=
  (∃ result, result_of m w = Return result
     ∧ result !! "status" = Some (VStr "no_records")
     ∧ result !! "records_inserted" = Some (VInt 0)
     ∧ result !! "records_archived" = Some (VInt 0))
  ∧ events_of m w = []
  ∧ trace (m w).2 = trace w
  ∧ store (m w).2 = store w.

(** The summary the specification asks of a run that returns. *)
Definition run_result (result : Dict) : Prop :=
  (result !! "status" = Some (VStr "success")
   ∨ result !! "status" = Some (VStr "no_records"))
  ∧ (∃ n, result !! "records_inserted" = Some (VInt n))
  ∧ (∃ n, result !! "records_archived" = Some (VInt n))
  ∧ result !! "table" = Some (VStr live_table).

(** What the historical table is sent: the rows the initial select
    returned, each without its ['id']. *)
Definition archives_without_id (evs : list event) : Prop :=
  ∀ i p r, evs !! i = Some (Insert archive_table p, r) →
    ∃ f existing,
      evs !! 0 = Some (Select live_table "*" f, Return existing)
      ∧ p = Rows (delete "id" <$> existing).

(** A request other than the log write raised [e]: then the run raises
    [reaches e], and the last thing it sent, after the failing request,
    is a log entry whose message starts with [pfx]. *)
Definition failure_logged (pfx : string) (reaches : exn → exn)
    (evs : list event) (out : outcome Dict) : Prop :=
  ∀ i q e,
    evs !! i = Some (q, Raise e) → is_log_write (q, Raise e) = false →
    out = Raise (reaches e)
    ∧ ∃ entry lr msg,
        last evs = Some (Insert log_table (Row entry), lr)
        ∧ S i < length evs
        ∧ entry !! "message" = Some (VStr msg)
        ∧ String.prefix pfx msg = true.

(** The log write never raises: it returns, having sent one insert to the
    log table; when that insert raised, one ERROR line went to the
    console. *)
Definition sink_failure_contained `{Store} (log_operation : string → bool → M unit)
    (line : exn → string) : Prop :=
  ∀ message success w,
    result_of (log_operation message success) w = Return tt
    ∧ ∃ entry lr,
        events_of (log_operation message success) w
          = [(Insert log_table (Row entry), lr)]
        ∧ entry !! "message" = Some (VStr message)
        ∧ lines_of (log_operation message success) w
          = match lr with
            | Return _ => []
            | Raise e => [line e]
            end.

(** Whether a run raises is decided by the requests other than the log
    write. *)
Definition outcome_ignores_sink (evs : list event) (out : outcome Dict) : Prop :=
  raised out = true
  ↔ ∃ i q e, evs !! i = Some (q, Raise e) ∧ is_log_write (q, Raise e) = false.

(** What a run returns or raises is decided before the log write: two
    runs on the same batch that went the same way up to the log write,
    which is the last request, end the same way, whatever the log write
    was answered in the one and in the other. *)
Definition result_ignores_sink `{Store} (run : list Dict → M Dict) : Prop :=
  ∀ records w w',
    removelast (events_of (run records) w)
    = removelast (events_of (run records) w') →
    result_of (run records) w = result_of (run records) w'.

(** The new exception of Medicare Clinical Fees and New Jersey DOBI:
    [Exception(f"Failed to process {script_name}: {str(e)}")]. *)
Definition wrapped (script : string) (e : exn) : exn :=
  Exception ("Failed to process " +:+ script +:+ ": " +:+ str e).

(** A failure [e] of a request other than the log write, with [only e],
    reaches the caller as a new [Exception]. *)
Definition failure_wrapped (script : string) (only : exn → bool)
    (evs : list event) (out : outcome Dict) : Prop :=
  ∀ i q e,
    evs !! i = Some (q, Raise e) → is_log_write (q, Raise e) = false →
    only e = true →
    out = Raise (Exception ("Failed to process " +:+ script +:+ ": " +:+ str e)).

(** [records_deleted] is in every summary, and on success it is
    [records_archived], the number of rows the initial select returned. *)
Definition deleted_is_archived (evs : list event) (out : outcome Dict) : Prop :=
  ∀ result, out = Return result →
    (∃ n, result !! "records_deleted" = Some (VInt n))
    ∧ (result !! "status" = Some (VStr "success") →
       result !! "records_deleted" = result !! "records_archived"
       ∧ ∃ f existing,
           evs !! 0 = Some (Select live_table "*" f, Return existing)
           ∧ result !! "records_archived"
             = Some (VInt (Z.of_nat (length existing)))).

(** ** Medicare ASC Addenda: [DataProcessorASC.clean_data]

    Text is UTF-8, a [string] of its bytes.  White space is what
    [str.isspace] says, of an ASCII character and of the others.
    [str.lower] and [str.title] are Python's: they are known on ASCII
    text, where they are [ascii_lower] and [ascii_title], and are left
    open on the letters above 127, whose case Python changes by the
    tables of Unicode.  So are the numbers [pandas] reads in a text and
    the floats it makes of integers.

    A cell is a null, a text, a number or a flag; date cells are left
    out. *)
Module MedicareASCAddenda.
Definition is_upper (c : ascii) : bool :=
  (65 <=? nat_of_ascii c) && (nat_of_ascii c <=? 90).
Definition is_lower (c : ascii) : bool :=
  (97 <=? nat_of_ascii c) && (nat_of_ascii c <=? 122).
Definition lower_char (c : ascii) : ascii :=
  if is_upper c then ascii_of_nat (nat_of_ascii c + 32) else c.
Definition upper_char (c : ascii) : ascii :=
  if is_lower c then ascii_of_nat (nat_of_ascii c - 32) else c.
(** [str.isspace] on ASCII: tab to carriage return, the four separators
    and the blank. *)
Definition is_space (c : ascii) : bool :=
  ((9 <=? nat_of_ascii c) && (nat_of_ascii c <=? 13))
  || ((28 <=? nat_of_ascii c) && (nat_of_ascii c <=? 32)).

Definition of_bytes (bytes : list nat) : string :=
  String.string_of_list_ascii (ascii_of_nat <$> bytes).

(** The white space above 127, each character by its bytes: U+0085,
    U+00A0, U+1680, U+2000 to U+200A, U+2028, U+2029, U+202F, U+205F and
    U+3000. *)
Definition wide_spaces : list string :=
  of_bytes
  <$> [[194; 133]; [194; 160]; [225; 154; 128];
       [226; 128; 128]; [226; 128; 129]; [226; 128; 130]; [226; 128; 131];
       [226; 128; 132]; [226; 128; 133]; [226; 128; 134]; [226; 128; 135];
       [226; 128; 136]; [226; 128; 137]; [226; 128; 138];
       [226; 128; 168]; [226; 128; 169]; [226; 128; 175];
       [226; 129; 159]; [227; 128; 128]].

(** All bytes are below 128. *)
Definition ascii_only (s : string) : bool :=
  forallb (λ c, nat_of_ascii c <? 128) (String.list_ascii_of_string s).

(** [s.lower()] for ASCII text *)
Fixpoint ascii_lower (s : string) : string :=
  match s with
  | EmptyString => EmptyString
  | String c s' => String (lower_char c) (ascii_lower s')
  end.

(** [needle in hay] *)
Fixpoint contains (needle hay : string) : bool :=
  String.prefix needle hay
  || match hay with
     | EmptyString => false
     | String _ hay' => contains needle hay'
     end.

Fixpoint replace_go (old new : string) (skip : nat) (s : string) : string :=
  match s with
  | EmptyString => EmptyString
  | String c s' =>
      match skip with
      | S k => replace_go old new k s'
      | O =>
          if String.prefix old s
          then new +:+ replace_go old new (String.length old - 1) s'
          else String c (replace_go old new 0 s')
      end
  end.

(** [s.replace(old, new)], for a non-empty [old] *)
Definition replace (s old new : string) : string := replace_go old new 0 s.

(** How many bytes the white-space character at the head of [s] takes,
    the wide ones read in [wide]; 0 when no white space is there. *)
Definition space_width (wide : list string) (s : string) : nat :=
  match s with
  | EmptyString => 0
  | String c _ =>
      if is_space c then 1
      else
        match List.filter (λ w, String.prefix w s) wide with
        | w :: _ => String.length w
        | [] => 0
        end
  end.

Fixpoint lstrip_go (wide : list string) (skip : nat) (s : string) : string :=
  match s with
  | EmptyString => EmptyString
  | String _ s' =>
      match skip with
      | S k => lstrip_go wide k s'
      | O =>
          match space_width wide s with
          | O => s
          | S k => lstrip_go wide k s'
          end
      end
  end.

Definition reverse (s : string) : string :=
  String.string_of_list_ascii (rev (String.list_ascii_of_string s)).

(** [s.lstrip()] *)
Definition lstrip (s : string) : string := lstrip_go wide_spaces 0 s.

(** [s.rstrip()]: from the end, where each character has its bytes in
    the reverse order. *)
Definition rstrip (s : string) : string :=
  reverse (lstrip_go (reverse <$> wide_spaces) 0 (reverse s)).

(** [s.strip()] *)
Definition strip (s : string) : string := rstrip (lstrip s).

Fixpoint title_go (previous_is_cased : bool) (s : string) : string :=
  match s with
  | EmptyString => EmptyString
  | String c s' =>
      if is_upper c || is_lower c then
        String (if previous_is_cased then lower_char c else upper_char c)
               (title_go true s')
      else String c (title_go false s')
  end.

(** [s.title()] for ASCII text *)
Definition ascii_title (s : string) : string := title_go false s.

Definition SOURCE_HCPCS_COL : string := "HCPCS Code".
Definition SOURCE_DESC_COL : string := "Short Descriptor".
Definition SOURCE_RATE_MARKER : string := "Payment Rate".

(** Numbers of a numeric column: integers, finite floats [m * 2 ^ e]
    and the two infinities. *)
Inductive num :=
| Int (z : Z)
| Float (m e : Z)
| Inf (negative : bool).

(** A cell of a frame.  [NaN] is the float not-a-number, [None_] is
    Python's [None], [Bool] a flag. *)
Inductive cell :=
| NaN
| None_
| Str (s : string)
| Num (n : num)
| Bool (b : bool).

(** [pd.isnull] *)
Definition isnull (c : cell) : bool :=
  match c with
  | NaN | None_ => true
  | _ => false
  end.

(** A column label: a [str], or any other scalar, known by its [str()]. *)
Inductive label :=
| L (s : string)
| Other (text : string).

#[export] Instance label_eq_dec : EqDecision label.
Proof. solve_decision. Defined.

Definition label_str (l : label) : string :=
  match l with
  | L s => s
  | Other text => text
  end.

(** The frame [read_excel] hands over: labels, which may repeat, and
    rows of cells by position. *)
Record DataFrame := {
  columns : list label;
  rows : list (list cell)
}.

(** A frame whose labels are distinct strings: its rows by label. *)
Record Table := {
  cols : list string;
  recs : list (gmap string cell)
}.

Inductive error :=
| MissingRequiredColumns (missing_keys available_columns : list string)
| KeyError (name : string)
| LengthMismatch (expected_axis new_values : nat)
| OverflowError.

Inductive result :=
| Returns (df : Table)
| Raises (e : error).

(** [df[col]] of one row; a cell that is not there reads as [NaN]. *)
Definition at_ (row : gmap string cell) (col : string) : cell :=
  default NaN (row !! col).

(** [if col:] for [col] a string or [None] *)
Definition truthy (col : option string) : bool :=
  match col with
  | Some (String _ _) => true
  | _ => false
  end.

Fixpoint positions_from (i : nat) (labels : list label) (name : string)
    : list nat :=
  match labels with
  | [] => []
  | l :: labels' =>
      (if decide (l = L name) then [i] else [])
      ++ positions_from (S i) labels' name
  end.

(** Positions of the columns labelled [name]. *)
Definition positions (labels : list label) (name : string) : list nat :=
  positions_from 0 labels name.

(** Positions [df[names]] selects, or the name no column has. *)
Fixpoint selection (labels : list label) (names : list string)
    : string + list nat :=
  match names with
  | [] => inr []
  | name :: names' =>
      match positions labels name with
      | [] => inl name
      | ps =>
          match selection labels names' with
          | inl missing => inl missing
          | inr ps' => inr (ps ++ ps')
          end
      end
  end.

Definition required_keys : list string := ["code"; "code_description"; "80th"].

(** What Python and [pandas] decide: [str.lower] and [str.title], which
    on ASCII text are [ascii_lower] and [ascii_title]; the number
    [pd.to_numeric] reads in a text, [Int] when the text is an integer;
    the double it reads in the text of an integer; the double of an
    [int], none when the [int] is too large for one; and [str()] of a
    number. *)
Class Python := {
  lower : string → string;
  title : string → string;
  lower_ascii s : ascii_only s = true → lower s = ascii_lower s;
  title_ascii s : ascii_only s = true → title s = ascii_title s;
  parse_number : string → option num;
  float_of_text : string → num;
  float_of_int : Z → option num;
  repr_num : num → string
}.

Definition INT64_MIN : Z := (- 2 ^ 63)%Z.
Definition INT64_MAX : Z := (2 ^ 63 - 1)%Z.
Definition UINT64_MAX : Z := (2 ^ 64 - 1)%Z.

Section clean.
Context `{Python}.

(** [next((col for col in available_columns if marker.lower() in
    col.lower()), None)] *)
Definition find_column (marker : string) (available_columns : list string)
    : option string :=
  snd <$> list_find (λ col, contains (lower marker) (lower col) = true)
            available_columns.

(** [rel_date_value]: [name.lower().replace(marker.lower(), "")
    .strip().title()] *)
Definition rel_date_of (rate_col_full_name : string) : string :=
  title (strip (replace (lower rate_col_full_name)
                  (lower SOURCE_RATE_MARKER) "")).


(** A cell under [.astype(str)] *)
Definition astype_str (c : cell) : string :=
  match c with
  | NaN => "nan"
  | None_ => "None"
  | Str s => s
  | Num n => repr_num n
  | Bool true => "True"
  | Bool false => "False"
  end.

(** The integer a cell holds, or reads as. *)
Definition int_of (c : cell) : option Z :=
  match c with
  | Num (Int z) => Some z
  | Str s =>
      match parse_number s with
      | Some (Int z) => Some z
      | _ => None
      end
  | _ => None
  end.

(** The cells that make their column a column of floats: a null, a
    float, a text that is not an integer, and an integer that 64 bits
    do not hold. *)
Definition is_float (c : cell) : bool :=
  match c with
  | Bool _ => false
  | _ =>
      match int_of c with
      | Some z => (z <? INT64_MIN)%Z || (UINT64_MAX <? z)%Z
      | None => true
      end
  end.

Definition is_negative (c : cell) : bool :=
  match int_of c with
  | Some z => (z <? 0)%Z
  | None => false
  end.

(** An integer above the signed 64 bits. *)
Definition is_large (c : cell) : bool :=
  match int_of c with
  | Some z => (INT64_MAX <? z)%Z
  | None => false
  end.

(** The column comes out as floats: it has a cell that is one, or a
    negative integer beside one that only unsigned 64 bits hold. *)
Definition seen_float (column : list cell) : bool :=
  existsb is_float column
  || (existsb is_negative column && existsb is_large column).

Definition seen_int (column : list cell) : bool :=
  existsb (λ c, bool_decide (is_Some (int_of c))) column.

(** A cell as a float; no cell for an [int] too large, which raises
    [OverflowError].  What cannot be read is [NaN] ([errors='coerce']). *)
Definition as_float (c : cell) : option cell :=
  match c with
  | NaN | None_ => Some NaN
  | Str s =>
      match parse_number s with
      | Some (Int _) => Some (Num (float_of_text s))
      | Some n => Some (Num n)
      | None => Some NaN
      end
  | Num (Int z) => Num <$> float_of_int z
  | Num n => Some (Num n)
  | Bool b => Some (Num (Float (Z.b2z b) 0))
  end.

(** A cell of a column of integers. *)
Definition as_int (c : cell) : cell :=
  match c with
  | Bool b => Num (Int (Z.b2z b))
  | _ =>
      match int_of c with
      | Some z => Num (Int z)
      | None => c
      end
  end.

(** [pd.to_numeric(column, errors='coerce')].  The column is read as a
    whole, every cell as a float first: it comes out as floats, or as
    integers when it holds integers and nothing makes it floats, flags
    then counting as 1 and 0; a column of flags alone stays as it is. *)
Definition to_numeric (column : list cell) : option (list cell) :=
  floats ← mapM as_float column;
  Some (if seen_float column then floats
        else if seen_int column then as_int <$> column
        else column).

(** [df[col] = value], for one value *)
Definition assign (col : string) (value : gmap string cell → cell)
    (df : Table) : Table :=
  {| cols := if decide (col ∈ cols df) then cols df else cols df ++ [col];
     recs := (λ row, <[col := value row]> row) <$> recs df |}.

(** [df[col]] *)
Definition column (col : string) (df : Table) : list cell :=
  (λ row, at_ row col) <$> recs df.

(** [df[col] = values], for a column of as many values as [df] has
    rows *)
Definition assign_column (col : string) (values : list cell) (df : Table)
    : Table :=
  {| cols := if decide (col ∈ cols df) then cols df else cols df ++ [col];
     recs := zip_with (λ row value, <[col := value]> row) (recs df) values |}.

(** [df[mask]] *)
Definition keep (mask : gmap string cell → bool) (df : Table) : Table :=
  {| cols := cols df; recs := List.filter mask (recs df) |}.

(** One turn of the loop [for col in df_cleaned.columns]. *)
Definition nan_to_none (df : Table) (col : string) : Table :=
  if existsb (λ row, isnull (at_ row col)) (recs df) then
    assign col (λ row, if isnull (at_ row col) then None_ else at_ row col) df
  else df.

Definition clean_data (df : DataFrame) : result :=
  let available_columns := label_str <$> columns df in
  let hcpcs_col := find_column SOURCE_HCPCS_COL available_columns in
  let desc_col := find_column SOURCE_DESC_COL available_columns in
  let rate_col_name := find_column SOURCE_RATE_MARKER available_columns in
  let columns_mapping : list (string * string) :=
    (if truthy hcpcs_col then [("code", default "" hcpcs_col)] else [])
    ++ (if truthy desc_col then [("code_description", default "" desc_col)] else [])
    ++ (if truthy rate_col_name then [("80th", default "" rate_col_name)] else []) in
  let missing_keys :=
    List.filter (λ key, negb (bool_decide (key ∈ columns_mapping.*1)))
      required_keys in
  match missing_keys with
  | _ :: _ => Raises (MissingRequiredColumns missing_keys available_columns)
  | [] =>
      let rate_col_full_name := default "" rate_col_name in
      let rel_date_value := rel_date_of rate_col_full_name in
      match selection (columns df) columns_mapping.*2 with
      | inl name => Raises (KeyError name)
      | inr ps =>
          if negb (length ps =? length required_keys) then
            Raises (LengthMismatch (length ps) (length required_keys))
          else
            let df_cleaned :=
              {| cols := required_keys;
                 recs := (λ row,
                            list_to_map
                              (zip required_keys
                                 ((λ p, default NaN (row !! p)) <$> ps)))
                         <$> rows df |} in
            let df_cleaned :=
              assign "data_type" (λ _, Str "Medicare Facility") df_cleaned in
            let df_cleaned :=
              assign "rel_date" (λ _, Str rel_date_value) df_cleaned in
            let df_cleaned :=
              keep (λ row, negb (isnull (at_ row "code"))) df_cleaned in
            let df_cleaned :=
              keep (λ row,
                      0 <? String.length (strip (astype_str (at_ row "code"))))
                df_cleaned in
            match to_numeric (column "80th" df_cleaned) with
            | None => Raises OverflowError
            | Some rates =>
                let df_cleaned := assign_column "80th" rates df_cleaned in
                let df_cleaned :=
                  foldl nan_to_none df_cleaned (cols df_cleaned) in
                let df_cleaned :=
                  keep (λ row,
                          negb (forallb (λ col, isnull (at_ row col))
                                  (cols df_cleaned)))
                    df_cleaned in
                Returns df_cleaned
            end
      end
  end.
End clean.

(** A reader of unsigned decimal integers, to run [clean_data] on
    examples. *)
Definition digits_only (s : string) : option num :=
  match s with
  | EmptyString => None
  | _ =>
      foldl (λ acc c,
               n ← acc;
               if (48 <=? nat_of_ascii c) && (nat_of_ascii c <=? 57)
               then Some (10 * n + Z.of_nat (nat_of_ascii c - 48))%Z
               else None)
        (Some 0%Z) (String.list_ascii_of_string s)
      ≫= λ z, Some (Int z)
  end.

Definition repr_int (n : num) : string :=
  match n with
  | Int z => pretty z
  | Float _ _ => "float"
  | Inf negative => if negative then "-inf" else "inf"
  end.

(** The double nearest to an integer, ties to the even one; none from
    [2 ^ 1024] on. *)
Definition double_of_int (z : Z) : option num :=
  let a := Z.abs z in
  let shift := Z.max 0 (Z.log2 a + 1 - 53) in
  let q := Z.shiftr a shift in
  let r := Z.land a (Z.ones shift) in
  let half := Z.shiftl 1 (shift - 1) in
  let q := if (0 <? shift)%Z && ((half <? r)%Z || ((r =? half)%Z && Z.odd q))
           then (q + 1)%Z else q in
  if (2 ^ 1024 <=? Z.shiftl q shift)%Z then None
  else Some (Float (Z.sgn z * q) shift).

(** Python for the examples: ASCII text and unsigned decimal integers. *)
Definition plain_python : Python := {|
  lower := ascii_lower;
  title := ascii_title;
  lower_ascii _ _ := eq_refl;
  title_ascii _ _ := eq_refl;
  parse_number := digits_only;
  float_of_text s :=
    match digits_only s with
    | Some (Int z) => default (Inf false) (double_of_int z)
    | _ => Inf false
    end;
  float_of_int := double_of_int;
  repr_num := repr_int
|}.
End MedicareASCAddenda.

(** ** Sample data *)

Definition old_row : Dict :=
  {[ "id" := VInt 7; "code" := VStr "99213"; "80th" := VFloat 125 0;
     "data_type" := VStr "Facility USA" ]}.

Definition new_row : Dict :=
  {[ "code" := VStr "99213"; "80th" := VFloat 131 0;
     "data_type" := VStr "Facility USA" ]}.

Definition other_row : Dict :=
  {[ "code" := VStr "99214"; "80th" := VFloat 190 0;
     "data_type" := VStr "Facility USA" ]}.

Definition timed_out : exn := PyExc "ConnectError" "timed out".

Definition noon : string := "November 04, 2026 at 12:00 PM".

(** One row is live, and the store answers every request. *)
Definition calm : @world ScriptedStore :=
  scripted [Return [old_row]; Return [old_row]; Return []; Return [new_row]] noon.

(** One row is live, and the insert into the historical table raises. *)
Definition archive_down : @world ScriptedStore :=
  scripted [Return [old_row]; Raise timed_out] noon.

(** The select raises. *)
Definition select_down : @world ScriptedStore :=
  scripted [Raise timed_out] noon.

(** Nothing is live, and the store persists one row of the two sent. *)
Definition one_of_two : @world ScriptedStore :=
  scripted [Return []; Return [new_row]] noon.

(** Nothing is live, and the response to the insert carries no rows. *)
Definition silent : @world ScriptedStore :=
  scripted [Return []; Return []] noon.

(** Every request is answered but the log write. *)
Definition sink_down : @world ScriptedStore :=
  scripted [Return []; Return [new_row]; Raise timed_out] noon.

(** ** More properties of a run *)

(** The run sent one log entry, after everything else: a row of the log
    table with the script's name and a message. *)
Definition one_log_entry (script : string) (evs : list event) : Prop :=
  ∃ body msg lr,
    evs = body ++ [(Insert log_table
                      (Row {[ "script" := VStr script; "message" := VStr msg ]}),
                    lr)]
    ∧ Forall (λ ev, is_log_write ev = false) body.

(** Once a request other than the log write raised, the log write is the
    one request that follows: nothing is retried and nothing is undone. *)
Definition stops_at_failure (evs : list event) : Prop :=
  ∀ i q e,
    evs !! i = Some (q, Raise e) → is_log_write (q, Raise e) = false →
    length evs = i + 2.

(** The requests of a replacement that went through: the select; when it
    returned rows, their copies to the historical table and the delete;
    then the insert of the new rows. *)
Definition replacement (f : row_filter) (records existing d d' data : list Dict)
    : list event :=
  (Select live_table "*" f, Return existing)
  :: match existing with
     | [] => []
     | _ :: _ =>
         [(Insert archive_table (Rows (delete "id" <$> existing)), Return d);
          (Delete live_table f, Return d')]
     end
  ++ [(Insert live_table (Rows records), Return data)].

(** A run that returns sent a replacement and then the log entry. *)
Definition runs_in_order (f : row_filter) (records : list Dict)
    (evs : list event) (out : outcome Dict) : Prop :=
  ∀ result, out = Return result →
    ∃ existing d d' data ev,
      evs = replacement f records existing d d' data ++ [ev]
      ∧ is_log_write ev = true.

(** When the select finds nothing live, nothing goes to the historical
    table and nothing is deleted. *)
Definition skips_archive (evs : list event) : Prop :=
  ∀ f, evs !! 0 = Some (Select live_table "*" f, Return []) →
    ∀ i q r, evs !! i = Some (q, r) →
      match q with
      | Delete _ _ => False
      | Insert t _ => t ≠ archive_table
      | Select _ _ _ => True
      end.

(** [records_archived] of a returned summary is the number of rows the
    initial select returned. *)
Definition archived_is_selected (evs : list event) (out : outcome Dict) : Prop :=
  ∀ result, out = Return result →
    ∃ f existing,
      evs !! 0 = Some (Select live_table "*" f, Return existing)
      ∧ result !! "records_archived" = Some (VInt (Z.of_nat (length existing))).

(** The message of the log entry of a run that returns is built from the
    two counts of the summary. *)
Definition log_agrees (script t : string) (evs : list event)
    (out : outcome Dict) : Prop :=
  ∀ result, out = Return result →
    ∃ a n entry lr,
      last evs = Some (Insert log_table (Row entry), lr)
      ∧ result !! "records_archived" = Some (VInt (Z.of_nat a))
      ∧ result !! "records_inserted" = Some (VInt (Z.of_nat n))
      ∧ entry !! "message" = Some (VStr (create_log_message script a n t)).

(** A failure [e] of a request other than the log write, with [only e],
    reaches the caller as it is. *)
Definition failure_reraised (only : exn → bool) (evs : list event)
    (out : outcome Dict) : Prop :=
  ∀ i q e,
    evs !! i = Some (q, Raise e) → is_log_write (q, Raise e) = false →
    only e = true →
    out = Raise e.

(** Requests stay within the three tables: rows are read and deleted in
    the live table only, lists of rows go to the live or the historical
    table, single rows to the log table. *)
Definition confined (evs : list event) : Prop :=
  Forall (λ ev : event,
            match ev.1 with
            | Select t _ _ | Delete t _ => t = live_table
            | Insert t (Rows _) => t = live_table ∨ t = archive_table
            | Insert t (Row _) => t = log_table
            end) evs.

(** A property of all four handlers, each with its script name and the
    filter of its tag scope. *)
Definition in_all_handlers `{Store}
    (Q : (list Dict → M Dict) → string → row_filter → Prop) : Prop :=
  Q FairHealthFacility.insert_records FairHealthFacility.script_name
    (in_ "data_type" FairHealthFacility.data_types)
  ∧ Q FairHealthPhysicians.insert_records FairHealthPhysicians.script_name
      (in_ "data_type" FairHealthPhysicians.data_types)
  ∧ Q MedicareClinicalFees.insert_records MedicareClinicalFees.script_name
      (eq_ "data_type" MedicareClinicalFees.data_type)
  ∧ Q NewJerseyDOBI.insert_records NewJerseyDOBI.script_name
      (in_ "data_type" NewJerseyDOBI.data_types).

(** ** The cleaned frame *)

Section cleaned_rows.
Import MedicareASCAddenda.
Context `{Python}.

(** A rate as the claim has it, a number or [None]; and a rate that may
    also be a flag. *)
Definition a_number (c : cell) : Prop := c = None_ ∨ ∃ n, c = Num n.

Definition a_number_or_flag (c : cell) : Prop := a_number c ∨ ∃ b, c = Bool b.

(** What a row of the cleaned frame holds: the tag, a code that is not
    null and not blank, the date text, and a rate that is [a_rate]. *)
Definition clean_row (a_rate : cell → Prop) (date : string)
    (row : gmap string cell) : Prop :=
  at_ row "data_type" = Str "Medicare Facility"
  ∧ isnull (at_ row "code") = false
  ∧ strip (astype_str (at_ row "code")) ≠ ""
  ∧ at_ row "rel_date" = Str date
  ∧ a_rate (at_ row "80th").

(** The date text of a header: what is left of the header in lower case
    once the marker is taken out, stripped and in title case.  So for a
    header that has the marker once, between [before] and [after], it is
    [before] and [after] put together, stripped and in title case. *)
Definition date_text_of (header date : string) : Prop :=
  date = title (strip (replace (lower header) (lower SOURCE_RATE_MARKER) ""))
  ∧ ∀ before after,
      lower header = before +:+ lower SOURCE_RATE_MARKER +:+ after →
      contains (lower SOURCE_RATE_MARKER) (before +:+ "payment rat") = false →
      contains (lower SOURCE_RATE_MARKER) after = false →
      date = title (strip (before +:+ after)).

(** Flags are rates only where every rate is a flag. *)
Definition flags_together (out : Table) : Prop :=
  (∃ row b, row ∈ recs out ∧ at_ row "80th" = Bool b) →
  ∀ row, row ∈ recs out → ∃ b, at_ row "80th" = Bool b.

(** [None] in the place of a null cell. *)
Definition denull (c : cell) : cell := if isnull c then None_ else c.

(** A code that passes both filters: not null, and not blank as text. *)
Definition valid_code (c : cell) : bool :=
  negb (isnull c) && (0 <? String.length (strip (astype_str c))).

(** The rows of the sheet that are kept: those with a code, read at
    position [p1]. *)
Definition kept (p1 : nat) (df : DataFrame) : list (list cell) :=
  List.filter (λ row, valid_code (default NaN (row !! p1))) (rows df).

(** The record made of the cells at positions [p1] and [p2] of a row of
    the sheet and of its rate. *)
Definition cleaned_row (rel_date_value : string) (p1 p2 : nat)
    (row : list cell) (rate : cell) : gmap string cell :=
  {[ "code" := default NaN (row !! p1);
     "code_description" := denull (default NaN (row !! p2));
     "80th" := denull rate;
     "data_type" := Str "Medicare Facility";
     "rel_date" := Str rel_date_value ]}.

(** The record of the cells [c1], [c2] and [c3] of a row before its
    rate is made a number. *)
Definition selected (rel_date_value : string) (c1 c2 c3 : cell)
    : gmap string cell :=
  <["rel_date" := Str rel_date_value]>
    (<["data_type" := Str "Medicare Facility"]>
       (list_to_map (zip required_keys [c1; c2; c3]))).

(** What a turn of the loop does to a row when it rewrites [col]. *)
Definition turn (col : string) (row : gmap string cell) : gmap string cell :=
  <[col := denull (at_ row col)]> row.

End cleaned_rows.

(** A sheet with a blank code, a code of no-break spaces, a missing
    code and a rate that is not a number. *)
Definition sample_sheet : MedicareASCAddenda.DataFrame :=
  {| MedicareASCAddenda.columns :=
       [MedicareASCAddenda.L "HCPCS Code";
        MedicareASCAddenda.L "Short Descriptor";
        MedicareASCAddenda.Other "3";
        MedicareASCAddenda.L "July 2025 Payment Rate"];
     MedicareASCAddenda.rows :=
       [[MedicareASCAddenda.Str "0001"; MedicareASCAddenda.Str "Bone graft";
         MedicareASCAddenda.NaN; MedicareASCAddenda.Str "12"];
        [MedicareASCAddenda.NaN; MedicareASCAddenda.Str "No code";
         MedicareASCAddenda.NaN; MedicareASCAddenda.Str "1"];
        [MedicareASCAddenda.Str "  "; MedicareASCAddenda.Str "Blank code";
         MedicareASCAddenda.NaN; MedicareASCAddenda.Str "1"];
        [MedicareASCAddenda.Str (MedicareASCAddenda.of_bytes [194; 160; 32]);
         MedicareASCAddenda.Str "No-break space"; MedicareASCAddenda.NaN;
         MedicareASCAddenda.Str "1"];
        [MedicareASCAddenda.Num (MedicareASCAddenda.Int 5);
         MedicareASCAddenda.NaN; MedicareASCAddenda.NaN;
         MedicareASCAddenda.Str "n/a"]] |}.

(** The rate that is not a number makes the column one of floats: the
    rate 12 comes out as 12.0. *)
Definition sample_cleaned : MedicareASCAddenda.Table :=
  {| MedicareASCAddenda.cols :=
       ["code"; "code_description"; "80th"; "data_type"; "rel_date"];
     MedicareASCAddenda.recs :=
       [{[ "code" := MedicareASCAddenda.Str "0001";
           "code_description" := MedicareASCAddenda.Str "Bone graft";
           "80th" := MedicareASCAddenda.Num (MedicareASCAddenda.Float 12 0);
           "data_type" := MedicareASCAddenda.Str "Medicare Facility";
           "rel_date" := MedicareASCAddenda.Str "July 2025" ]};
        {[ "code" := MedicareASCAddenda.Num (MedicareASCAddenda.Int 5);
           "code_description" := MedicareASCAddenda.None_;
           "80th" := MedicareASCAddenda.None_;
           "data_type" := MedicareASCAddenda.Str "Medicare Facility";
           "rel_date" := MedicareASCAddenda.Str "July 2025" ]}] |}.

(** A sheet whose rates are flags. *)
Definition flag_sheet : MedicareASCAddenda.DataFrame :=
  {| MedicareASCAddenda.columns :=
       [MedicareASCAddenda.L "HCPCS Code";
        MedicareASCAddenda.L "Short Descriptor";
        MedicareASCAddenda.L "Payment Rate"];
     MedicareASCAddenda.rows :=
       [[MedicareASCAddenda.Str "0001"; MedicareASCAddenda.Str "Bone graft";
         MedicareASCAddenda.Bool true];
        [MedicareASCAddenda.Str "0002"; MedicareASCAddenda.Str "Skin graft";
         MedicareASCAddenda.Bool false]] |}.

Definition flag_row : gmap string MedicareASCAddenda.cell :=
  {[ "code" := MedicareASCAddenda.Str "0001";
     "code_description" := MedicareASCAddenda.Str "Bone graft";
     "80th" := MedicareASCAddenda.Bool true;
     "data_type" := MedicareASCAddenda.Str "Medicare Facility";
     "rel_date" := MedicareASCAddenda.Str "" ]}.

Definition flag_cleaned : MedicareASCAddenda.Table :=
  {| MedicareASCAddenda.cols :=
       ["code"; "code_description"; "80th"; "data_type"; "rel_date"];
     MedicareASCAddenda.recs :=
       [flag_row;
        {[ "code" := MedicareASCAddenda.Str "0002";
           "code_description" := MedicareASCAddenda.Str "Skin graft";
           "80th" := MedicareASCAddenda.Bool false;
           "data_type" := MedicareASCAddenda.Str "Medicare Facility";
           "rel_date" := MedicareASCAddenda.Str "" ]}] |}.


(** ** The tables behind the client

    What the handlers assume of the service: it holds a live and a
    historical table; a select returns the live rows that pass the
    filter; an insert appends the rows sent, each possibly extended with
    fields of the store's own (an identifier, a time stamp); a delete
    removes the live rows that pass the filter; the log write and a
    request that raises leave both tables as they are. *)

(** Whether a row passes a filter on a text column. *)
Definition matches (f : row_filter) (row : Dict) : bool :=
  match row !! column_of f with
  | Some (VStr s) =>
      match f with
      | eq_ _ v => bool_decide (s = v)
      | in_ _ vs => bool_decide (s ∈ vs)
      end
  | _ => false
  end.

Class TableStore `{Store} := {
  live_rows : St → list Dict;
  archived_rows : St → list Dict;
  select_returns s f rows s' :
    exec (Select live_table "*" f) s = (Return rows, s') →
    rows = List.filter (matches f) (live_rows s)
    ∧ live_rows s' = live_rows s ∧ archived_rows s' = archived_rows s;
  archive_appends s rows d s' :
    exec (Insert archive_table (Rows rows)) s = (Return d, s') →
    live_rows s' = live_rows s
    ∧ ∃ stored, archived_rows s' = archived_rows s ++ stored
                ∧ Forall2 (⊆) rows stored;
  delete_removes s f d s' :
    exec (Delete live_table f) s = (Return d, s') →
    live_rows s' = List.filter (λ row, negb (matches f row)) (live_rows s)
    ∧ archived_rows s' = archived_rows s;
  insert_appends s rows d s' :
    exec (Insert live_table (Rows rows)) s = (Return d, s') →
    archived_rows s' = archived_rows s
    ∧ ∃ stored, live_rows s' = live_rows s ++ stored
                ∧ Forall2 (⊆) rows stored;
  log_leaves s entry r s' :
    exec (Insert log_table (Row entry)) s = (r, s') →
    live_rows s' = live_rows s ∧ archived_rows s' = archived_rows s;
  failure_leaves s q e s' :
    exec q s = (Raise e, s') →
    live_rows s' = live_rows s ∧ archived_rows s' = archived_rows s
}.

(** The store went from [s] to [s'] by answering the requests of [evs]
    one after the other. *)
Fixpoint replays `{Store} (s : St) (evs : list event) (s' : St) : Prop :=
  match evs with
  | [] => s' = s
  | (q, r) :: evs' => ∃ s1, exec q s = (r, s1) ∧ replays s1 evs' s'
  end.

(** The store of a handler's world moves by the requests the handler
    sends, and by nothing else. *)
Definition replayed `{Store} (run : list Dict → M Dict) : Prop :=
  ∀ records w,
    replays (store w) (events_of (run records) w) (store (run records w).2).

(** The tables after a replacement of the rows that pass [f] by
    [records]: the live table holds the rows out of scope and then the
    new rows as stored; the historical table has gained the copies,
    without ['id'], of the rows that were in scope. *)
Definition replaced_in `{TableStore} (f : row_filter) (records : list Dict)
    (s s' : St) : Prop :=
  ∃ stored copies,
    live_rows s'
    = List.filter (λ row, negb (matches f row)) (live_rows s) ++ stored
    ∧ Forall2 (⊆) records stored
    ∧ archived_rows s' = archived_rows s ++ copies
    ∧ Forall2 (⊆) (delete "id" <$> List.filter (matches f) (live_rows s)) copies.

(** No row is lost between [s] and [s']: a row that was live is still
    live or has its copy, without ['id'], in the historical table; and
    the historical table has only grown. *)
Definition nothing_lost `{TableStore} (s s' : St) : Prop :=
  (∀ row, row ∈ live_rows s →
     row ∈ live_rows s'
     ∨ ∃ copy, copy ∈ archived_rows s' ∧ delete "id" row ⊆ copy)
  ∧ ∃ copies, archived_rows s' = archived_rows s ++ copies.

(** The tag scopes of the four handlers. *)
Definition scopes : list row_filter :=
  [in_ "data_type" FairHealthFacility.data_types;
   in_ "data_type" FairHealthPhysicians.data_types;
   eq_ "data_type" MedicareClinicalFees.data_type;
   in_ "data_type" NewJerseyDOBI.data_types].

(** The rows of the other handlers' scopes that were live in [s] are
    live in [s']. *)
Definition others_kept `{TableStore} (f : row_filter) (s s' : St) : Prop :=
  ∀ g row, g ∈ scopes → g ≠ f → row ∈ live_rows s → matches g row = true →
    row ∈ live_rows s'.

(** A failure of the select, of the archive insert or of the delete
    leaves the live table as it was. *)
Definition early_failure_keeps_live `{TableStore} (evs : list event)
    (s s' : St) : Prop :=
  ∀ i q e, evs !! i = Some (q, Raise e) →
    match q with
    | Select _ _ _ | Delete _ _ => True
    | Insert t _ => t = archive_table
    end →
    live_rows s' = live_rows s.

(** ** A store in memory

    The three tables as lists, and a schedule of faults: one entry per
    request still to come, [Some e] to make it raise [e]. *)
Record memory := Memory {
  m_live : list Dict;
  m_archive : list Dict;
  m_log : list Dict;
  m_faults : list (option exn)
}.

Definition memory_exec (q : request) (s : memory) : response * memory :=
  match m_faults s with
  | Some e :: faults =>
      (Raise e, Memory (m_live s) (m_archive s) (m_log s) faults)
  | _ =>
      let faults := tail (m_faults s) in
      match q with
      | Select t _ f =>
          (Return (if bool_decide (t = live_table)
                   then List.filter (matches f) (m_live s) else []),
           Memory (m_live s) (m_archive s) (m_log s) faults)
      | Insert t (Rows rows) =>
          if bool_decide (t = live_table) then
            (Return rows, Memory (m_live s ++ rows) (m_archive s) (m_log s) faults)
          else if bool_decide (t = archive_table) then
            (Return rows, Memory (m_live s) (m_archive s ++ rows) (m_log s) faults)
          else (Return [], Memory (m_live s) (m_archive s) (m_log s) faults)
      | Insert t (Row entry) =>
          if bool_decide (t = log_table) then
            (Return [entry],
             Memory (m_live s) (m_archive s) (m_log s ++ [entry]) faults)
          else (Return [], Memory (m_live s) (m_archive s) (m_log s) faults)
      | Delete t f =>
          if bool_decide (t = live_table) then
            (Return [],
             Memory (List.filter (λ row, negb (matches f row)) (m_live s))
               (m_archive s) (m_log s) faults)
          else (Return [], Memory (m_live s) (m_archive s) (m_log s) faults)
      end
  end.

Definition MemoryStore : Store := {|
  St := memory;
  exec := memory_exec
|}.

Definition in_memory (live : list Dict) (faults : list (option exn))
    : @world MemoryStore :=
  World MemoryStore (Memory live [] [] faults) [] [] noon.

(** A live row of another scope. *)
Definition lab_row : Dict :=
  {[ "id" := VInt 3; "code" := VStr "80047"; "80th" := VFloat 21 0;
     "data_type" := VStr "Medicare Lab" ]}.

(** A failure of the final insert leaves the live table without the
    rows of the scope. *)
Definition insert_failure_empties_scope `{TableStore} (f : row_filter)
    (evs : list event) (s s' : St) : Prop :=
  ∀ i rows e, evs !! i = Some (Insert live_table (Rows rows), Raise e) →
    live_rows s' = List.filter (λ row, negb (matches f row)) (live_rows s).

(** Two rows are live, one of them out of the Facility scope. *)
Definition two_scopes (faults : list (option exn)) : @world MemoryStore :=
  in_memory [old_row; lab_row] faults.

(** ** The constructors

    [__init__] of the four handler classes.  [environ] is [os.environ]
    once the [.env] file is loaded, [create_client] the function of the
    [supabase] package.  A construction gives the handler or the
    exception raised, the ERROR lines printed and the calls of
    [create_client] made. *)

(** [os.getenv(key)] *)
Definition getenv (environ : gmap string string) (key : string) : option string :=
  environ !! key.

(** [not v], for [v] a string or [None]. *)
Definition not_ (v : option string) : bool :=
  match v with
  | Some (String _ _) => false
  | _ => true
  end.

Definition construction (self : Type) : Type :=
  outcome self * list string * list (string * string).

Module SupabaseHandlerFairHealth.
Section class.
Variable Client : Type.
Variable environ : gmap string string.
Variable create_client : string → string → outcome Client.

Record self := Self {
  supabase_url : option string;
  supabase_key : option string;
  updated_table : string;
  historical_table : string;
  logging_table : string;
  script_name : string;
  data_types : list string;
  client : Client
}.

Definition __init__ : construction self :=
  let supabase_url := getenv environ "SUPABASE_URL" in
  let supabase_key := getenv environ "SUPABASE_KEY" in
  let updated_table := "updated_medical_benchmarking_data" in
  let historical_table := "historical_medical_benchmarking_data" in
  let logging_table := "logging_table" in
  let script_name := "Fairhealth Facility" in
  let data_types := ["Facility USA"; "Facility 070"; "Facility 074"] in
  if not_ supabase_url || not_ supabase_key then
    (Raise (PyExc "ValueError" "Missing Supabase credentials in environment variables"),
     ["❌ Missing Supabase credentials. Ensure SUPABASE_URL and SUPABASE_KEY are in .env file."],
     [])
  else
    let url := default "" supabase_url in
    let key := default "" supabase_key in
    match create_client url key with
    | Return client =>
        (Return (Self supabase_url supabase_key updated_table historical_table
                   logging_table script_name data_types client),
         [], [(url, key)])
    | Raise e =>
        (Raise e, ["❌ Failed to initialize Supabase client: " +:+ str e],
         [(url, key)])
    end.
End class.
End SupabaseHandlerFairHealth.

Module SupabaseHandlerPhysician.
Section class.
Variable Client : Type.
Variable environ : gmap string string.
Variable create_client : string → string → outcome Client.

Record self := Self {
  supabase_url : option string;
  supabase_key : option string;
  updated_table : string;
  historical_table : string;
  logging_table : string;
  script_name : string;
  data_types : list string;
  client : Client
}.

Definition __init__ : construction self :=
  let supabase_url := getenv environ "SUPABASE_URL" in
  let supabase_key := getenv environ "SUPABASE_KEY" in
  let updated_table := "updated_medical_benchmarking_data" in
  let historical_table := "historical_medical_benchmarking_data" in
  let logging_table := "logging_table" in
  let script_name := "Fairhealth Physician" in
  let data_types := ["Physician USA"; "Physician 070"] in
  if not_ supabase_url || not_ supabase_key then
    (Raise (PyExc "ValueError"
              "SUPABASE_URL and SUPABASE_KEY must be set in environment variables"),
     [], [])
  else
    let url := default "" supabase_url in
    let key := default "" supabase_key in
    match create_client url key with
    | Return client =>
        (Return (Self supabase_url supabase_key updated_table historical_table
                   logging_table script_name data_types client),
         [], [(url, key)])
    | Raise e =>
        (Raise e, ["❌ Failed to initialize Supabase client: " +:+ str e],
         [(url, key)])
    end.
End class.
End SupabaseHandlerPhysician.

Module SupabaseHandlerCLFS.
Section class.
Variable Client : Type.
Variable environ : gmap string string.
Variable create_client : string → string → outcome Client.

Record self := Self {
  supabase_url : option string;
  supabase_key : option string;
  updated_table : string;
  historical_table : string;
  logging_table : string;
  script_name : string;
  data_type : string;
  client : Client
}.

Definition __init__ : construction self :=
  let supabase_url := getenv environ "SUPABASE_URL" in
  let supabase_key := getenv environ "SUPABASE_KEY" in
  let updated_table := "updated_medical_benchmarking_data" in
  let historical_table := "historical_medical_benchmarking_data" in
  let logging_table := "logging_table" in
  let script_name := "Medicare Clinical Fees" in
  let data_type := "Medicare Lab" in
  if not_ supabase_url || not_ supabase_key then
    (Raise (PyExc "ValueError" "Missing Supabase credentials in environment variables"),
     ["❌ Missing Supabase credentials. Set SUPABASE_URL and SUPABASE_KEY in .env file."],
     [])
  else
    let url := default "" supabase_url in
    let key := default "" supabase_key in
    match create_client url key with
    | Return client =>
        (Return (Self supabase_url supabase_key updated_table historical_table
                   logging_table script_name data_type client),
         [], [(url, key)])
    | Raise e =>
        (Raise e, ["Failed to initialize Supabase client: " +:+ str e],
         [(url, key)])
    end.
End class.
End SupabaseHandlerCLFS.

Module SupabaseHandler.
Section class.
Variable Client : Type.
Variable environ : gmap string string.
Variable create_client : string → string → outcome Client.

Record self := Self {
  supabase_url : option string;
  supabase_key : option string;
  updated_table : string;
  historical_table : string;
  logging_table : string;
  script_name : string;
  data_types : list string;
  client : Client
}.

Definition __init__ : construction self :=
  let supabase_url := getenv environ "SUPABASE_URL" in
  let supabase_key := getenv environ "SUPABASE_KEY" in
  let updated_table := "updated_medical_benchmarking_data" in
  let historical_table := "historical_medical_benchmarking_data" in
  let logging_table := "logging_table" in
  let script_name := "New Jersey DOBI" in
  let data_types := ["Facility PIP"; "Physician PIP"] in
  if not_ supabase_url || not_ supabase_key then
    (Raise (PyExc "ValueError" "Missing Supabase credentials in environment variables"),
     ["❌ Missing Supabase credentials. Ensure SUPABASE_URL and SUPABASE_KEY are in .env file."],
     [])
  else
    let url := default "" supabase_url in
    let key := default "" supabase_key in
    match create_client url key with
    | Return client =>
        (Return (Self supabase_url supabase_key updated_table historical_table
                   logging_table script_name data_types client),
         [], [(url, key)])
    | Raise e =>
        (Raise e, ["Failed to initialize Supabase client: " +:+ str e],
         [(url, key)])
    end.
End class.
End SupabaseHandler.

(** Both credentials are set, and neither is the empty string. *)
Definition credentials (environ : gmap string string) (url key : string) : Prop :=
  environ !! "SUPABASE_URL" = Some url ∧ url ≠ ""
  ∧ environ !! "SUPABASE_KEY" = Some key ∧ key ≠ "".

(** A construction that raises [ValueError(msg)], prints [lines] and
    never calls [create_client]. *)
Definition refused {self} (c : construction self) (msg : string)
    (lines : list string) : Prop :=
  c.1.1 = Raise (PyExc "ValueError" msg) ∧ c.1.2 = lines ∧ c.2 = [].

(** A construction that calls [create_client] once, on [url] and [key],
    and ends as the call does: on a client, with a handler that holds it
    and no ERROR line; on an exception, with that exception and one
    ERROR line that ends in its text. *)
Definition delegated {self Client} (c : construction self)
    (client_of : self → Client) (url key : string)
    (made : outcome Client) : Prop :=
  c.2 = [(url, key)]
  ∧ match made with
    | Return client =>
        c.1.2 = [] ∧ ∃ handler, c.1.1 = Return handler ∧ client_of handler = client
    | Raise e =>
        c.1.1 = Raise e ∧ ∃ line, c.1.2 = [line +:+ str e]
    end.

Definition sample_environ : gmap string string :=
  {[ "SUPABASE_URL" := "https://db.example"; "SUPABASE_KEY" := "secret" ]}.

Definition keyless_environ : gmap string string :=
  {[ "SUPABASE_URL" := "https://db.example"; "SUPABASE_KEY" := "" ]}.

Definition unreachable_service (url key : string) : outcome unit :=
  Raise timed_out.

(** * Proofs *)

(** ** Running a handler *)

Ltac decide_len :=
  repeat match goal with
  | |- context [0 <? length ?l] =>
      first [ is_var l; fail 1
            | let b := eval cbv in (0 <? length l) in
              change (0 <? length l) with b ]
  end.

Ltac crunch :=
  cbv beta iota zeta delta
    [events_of lines_of result_of bind execute try_except ret raise
     logger_error now_strftime store trace console clock fst snd];
  decide_len; cbv beta iota zeta.

Ltac tidy := rewrite <- ?app_assoc, ?drop_app_length, ?drop_all.

Ltac close :=
  first [ by eapply no_records | by eapply select_raised
        | by eapply archive_raised | by eapply delete_raised
        | by eapply insert_raised_fresh | by eapply insert_raised
        | by eapply inserted_fresh | by eapply replaced ].

Ltac explore :=
  crunch;
  first
  [ match goal with
    | |- context [0 <? length ?l] => is_var l; destruct l; explore
    | |- context [match ?e with APIError _ _ _ _ => _ | PyExc _ _ => _ end] =>
        is_var e; destruct e; explore
    | |- context [exec ?q ?s] =>
        destruct (exec q s) as [[?|?] ?] eqn:?; explore
    end
  | tidy; close ].

Lemma facility_follows `{Store} :
  follows facility FairHealthFacility.insert_records.
Proof.
  intros records [s0 tr con clk].
  unfold FairHealthFacility.insert_records, FairHealthFacility._log_operation,
    FairHealthFacility._create_log_message.
  destruct records; explore.
Qed.

Lemma physicians_follows `{Store} :
  follows physicians FairHealthPhysicians.insert_records.
Proof.
  intros records [s0 tr con clk].
  unfold FairHealthPhysicians.insert_records, FairHealthPhysicians._log_operation,
    FairHealthPhysicians._create_log_message.
  destruct records; explore.
Qed.

Lemma clinical_fees_follows `{Store} :
  follows clinical_fees MedicareClinicalFees.insert_records.
Proof.
  intros records [s0 tr con clk].
  unfold MedicareClinicalFees.insert_records, MedicareClinicalFees._log_operation,
    MedicareClinicalFees._create_log_message.
  destruct records; explore.
Qed.

Lemma dobi_follows `{Store} : follows dobi NewJerseyDOBI.insert_records.
Proof.
  intros records [s0 tr con clk].
  unfold NewJerseyDOBI.insert_records, NewJerseyDOBI._log_operation,
    NewJerseyDOBI._create_log_message.
  destruct records; explore.
Qed.

(** ** The archived copy of a row *)

Lemma historical_record_delete (record : Dict) :
  historical_record record = delete "id" record.
Proof.
  apply map_eq. intros k. unfold historical_record.
  destruct (decide (k = "id")) as [->|Hk].
  - rewrite lookup_delete_eq. apply map_lookup_filter_None. right.
    intros v _ Hne. by apply Hne.
  - rewrite lookup_delete_ne by done.
    destruct (record !! k) as [v|] eqn:Hv.
    + by apply map_lookup_filter_Some.
    + apply map_lookup_filter_None. by left.
Qed.

Lemma records_for_history_snoc (acc existing : list Dict) :
  foldl (λ acc record, acc ++ [historical_record record]) acc existing
  = acc ++ (historical_record <$> existing).
Proof.
  revert acc. induction existing as [|x ex IH]; intros acc; simpl.
  - by rewrite app_nil_r.
  - rewrite IH. by rewrite <- app_assoc.
Qed.

Lemma records_for_history_fmap (existing : list Dict) :
  records_for_history existing = delete "id" <$> existing.
Proof.
  unfold records_for_history. rewrite records_for_history_snoc. simpl.
  apply list_fmap_ext. intros _ x _. apply historical_record_delete.
Qed.

(** ** What every shape guarantees *)

Ltac invert_shape H :=
  inversion H; subst; clear H;
  unfold failed, succeeded, sel, arch, del, ins, log,
    live_table, archive_table, log_table in *.

Ltac index i := destruct i as [|[|[|[|[|i]]]]]; simplify_eq/=.

Section shape_facts.
Variable P : profile.
Variable records : list Dict.
Variable t : string.
Variable evs : list event.
Variable lines : list string.
Variable out : outcome Dict.
Hypothesis Hshape : shape P records t (evs, lines, out).

Lemma shape_archive_before_delete :
  column_of (p_filter P) = "data_type" → archive_before_delete evs out.
Proof.
  intros Hcol. split.
  - intros i tbl f r Hi. invert_shape Hshape; index i; eauto 10 with lia.
  - intros j p e Hj. invert_shape Hshape; index j.
    split; [done|]. intros i tbl f r Hi. index i.
Qed.

Lemma shape_records_inserted (count : list Dict → nat) :
  (∀ data, p_count P records data = count data) →
  (∀ a n, p_success P a n !! "records_inserted" = Some (VInt (Z.of_nat n))) →
  records_inserted_is count records evs out.
Proof.
  intros Hcount Hsucc result data -> Hin.
  apply list_elem_of_lookup in Hin as [i Hi].
  invert_shape Hshape; index i; by rewrite Hsucc, Hcount.
Qed.

Lemma shape_archives_without_id : archives_without_id evs.
Proof.
  intros i p r Hi.
  invert_shape Hshape; index i;
    eexists _, _; (split; [reflexivity|]);
    by rewrite records_for_history_fmap.
Qed.

Lemma shape_failure_logged (pfx : string) (reaches : exn → exn) :
  (∀ msg, p_entry P msg !! "message" = Some (VStr msg)) →
  (∀ e, String.prefix pfx (p_err_msg P e) = true) →
  (∀ e, p_err_raise P e = reaches e) →
  failure_logged pfx reaches evs out.
Proof.
  intros Hentry Hpfx Hreaches i q e Hi Hq.
  invert_shape Hshape; index i;
    (split; [by rewrite Hreaches|]); eexists _, _, _;
    (split; [reflexivity|]); (split; [simpl; lia|]); eauto.
Qed.

Lemma shape_outcome_ignores_sink : outcome_ignores_sink evs out.
Proof.
  split.
  - intros Hout. invert_shape Hshape; simplify_eq/=.
    + by exists 0, (Select "updated_medical_benchmarking_data" "*" (p_filter P)), e.
    + eexists 1, _, e. by split.
    + eexists 2, _, e. by split.
    + eexists 1, _, e. by split.
    + eexists 3, _, e. by split.
  - intros (i & q & e & Hi & Hq).
    invert_shape Hshape; index i; done.
Qed.

Lemma shape_failure_wrapped (script : string) (only : exn → bool) :
  (∀ e, only e = true →
     p_err_raise P e
     = Exception ("Failed to process " +:+ script +:+ ": " +:+ str e)) →
  failure_wrapped script only evs out.
Proof.
  intros Hwrap i q e Hi Hq Honly.
  invert_shape Hshape; index i; by rewrite Hwrap.
Qed.

Lemma shape_deleted_is_archived :
  (∃ n, p_no_records P !! "records_deleted" = Some (VInt n)) →
  p_no_records P !! "status" = Some (VStr "no_records") →
  (∀ a n, p_success P a n !! "records_deleted" = Some (VInt (Z.of_nat a))) →
  (∀ a n, p_success P a n !! "records_archived" = Some (VInt (Z.of_nat a))) →
  deleted_is_archived evs out.
Proof.
  intros Hno Hstatus Hdel Harch result ->.
  invert_shape Hshape.
  - split; [done|]. intros Hs. rewrite Hstatus in Hs. done.
  - split; [eauto|]. intros _. rewrite Hdel, Harch. eauto.
  - split; [eauto|]. intros _. rewrite Hdel, Harch. eauto.
Qed.

Lemma shape_run_result :
  run_result (p_no_records P) →
  (∀ a n, run_result (p_success P a n)) →
  ∀ result, out = Return result → run_result result.
Proof.
  intros Hno Hsucc result ->. invert_shape Hshape; eauto.
Qed.
End shape_facts.

Lemma shape_result_ignores_sink (P : profile) (records : list Dict)
    (t t' : string) (evs evs' : list event) (lines lines' : list string)
    (out out' : outcome Dict) :
  shape P records t (evs, lines, out) →
  shape P records t' (evs', lines', out') →
  removelast evs = removelast evs' →
  out = out'.
Proof.
  intros Hshape Hshape' Hsame.
  invert_shape Hshape; invert_shape Hshape'; simpl in Hsame;
    by simplify_eq.
Qed.

(** ** The four handlers *)

Lemma len_or_0_length (data : list Dict) : len_or_0 data = length data.
Proof. by destruct data. Qed.

Lemma facility_prefix e : String.prefix "Failed" (p_err_msg facility e) = true.
Proof. by destruct e. Qed.

Lemma dobi_prefix e : String.prefix "Failed" (p_err_msg dobi e) = true.
Proof. by destruct e. Qed.

Ltac run_sink :=
  intros message success [s0 tr con clk];
  cbv beta iota zeta delta
    [FairHealthFacility._log_operation FairHealthPhysicians._log_operation
     MedicareClinicalFees._log_operation NewJerseyDOBI._log_operation];
  crunch;
  match goal with
  | |- context [exec ?q ?s] => destruct (exec q s) as [[?|?] ?]
  end;
  crunch; tidy; (split; [done|]); eexists _, _; by repeat split.

Lemma facility_sink `{Store} :
  sink_failure_contained FairHealthFacility._log_operation
    (λ e, "⚠️ Failed to write to logging_table: " +:+ str e).
Proof. run_sink. Qed.

Lemma physicians_sink `{Store} :
  sink_failure_contained FairHealthPhysicians._log_operation
    (λ e, "⚠️ Failed to write to logging_table: " +:+ str e).
Proof. run_sink. Qed.

Lemma clinical_fees_sink `{Store} :
  sink_failure_contained MedicareClinicalFees._log_operation
    (λ e, "⚠️ Failed to write log entry: " +:+ str e).
Proof. run_sink. Qed.

Lemma dobi_sink `{Store} :
  sink_failure_contained NewJerseyDOBI._log_operation
    (λ e, "⚠️ Failed to write log entry: " +:+ str e).
Proof. run_sink. Qed.

(** C1.  In each handler, on a non-empty batch: a delete goes to the live
    table only, with the [data_type] filter of the initial select and
    after the insert into the historical table returned; when that
    insert raises, the run raises and no delete is sent. *)
Theorem C1_archive_before_delete `{Store} (records : list Dict) (w : world) :
  records ≠ [] →
  archive_before_delete
    (events_of (FairHealthFacility.insert_records records) w)
    (result_of (FairHealthFacility.insert_records records) w)
  ∧ archive_before_delete
      (events_of (FairHealthPhysicians.insert_records records) w)
      (result_of (FairHealthPhysicians.insert_records records) w)
  ∧ archive_before_delete
      (events_of (MedicareClinicalFees.insert_records records) w)
      (result_of (MedicareClinicalFees.insert_records records) w)
  ∧ archive_before_delete
      (events_of (NewJerseyDOBI.insert_records records) w)
      (result_of (NewJerseyDOBI.insert_records records) w).
Proof.
  intros _. split_and!.
  - by apply (shape_archive_before_delete _ _ _ _ _ _ (facility_follows records w)).
  - by apply (shape_archive_before_delete _ _ _ _ _ _ (physicians_follows records w)).
  - by apply (shape_archive_before_delete _ _ _ _ _ _ (clinical_fees_follows records w)).
  - by apply (shape_archive_before_delete _ _ _ _ _ _ (dobi_follows records w)).
Qed.

Lemma C1_archive_before_delete_witness :
  [new_row] ≠ []
  ∧ archive_before_delete
      (events_of (FairHealthFacility.insert_records [new_row]) archive_down)
      (result_of (FairHealthFacility.insert_records [new_row]) archive_down).
Proof.
  split; [done|].
  apply (C1_archive_before_delete [new_row] archive_down). done.
Defined.

(** C2, as stated, fails.  Medicare Clinical Fees reports the two rows it
    sent although the store persisted one; Fair Health Facility reports 0,
    not the one row it sent, when the response carries no rows. *)
Lemma C2_counterexample :
  ¬ records_inserted_is (reported_count 2) [new_row; other_row]
      (events_of (MedicareClinicalFees.insert_records [new_row; other_row]) one_of_two)
      (result_of (MedicareClinicalFees.insert_records [new_row; other_row]) one_of_two)
  ∧ ¬ records_inserted_is (reported_count 1) [new_row]
      (events_of (FairHealthFacility.insert_records [new_row]) silent)
      (result_of (FairHealthFacility.insert_records [new_row]) silent).
Proof.
  split; intros Hclaim.
  - assert ((Insert live_table (Rows [new_row; other_row]), Return [new_row])
            ∈ events_of (MedicareClinicalFees.insert_records [new_row; other_row])
                one_of_two) as Hin.
    { apply list_elem_of_lookup. by exists 1. }
    pose proof (Hclaim (p_success clinical_fees 0 2) [new_row] eq_refl Hin) as Hn.
    change (Some (VInt 2) = Some (VInt 1)) in Hn. discriminate Hn.
  - assert ((Insert live_table (Rows [new_row]), Return [])
            ∈ events_of (FairHealthFacility.insert_records [new_row]) silent)
      as Hin.
    { apply list_elem_of_lookup. by exists 1. }
    pose proof (Hclaim (p_success facility 0 0) [] eq_refl Hin) as Hn.
    change (Some (VInt 0) = Some (VInt 1)) in Hn. discriminate Hn.
Qed.

(** C2, amended.  On a non-empty batch, the summary a handler returns has
    [records_inserted] equal to the number of rows in the response to the
    insert (0 when it carries none) in Fair Health Facility and Fair
    Health Physicians, and equal to the number of rows sent in Medicare
    Clinical Fees and New Jersey DOBI. *)
Theorem C2_records_inserted `{Store} (records : list Dict) (w : world) :
  records ≠ [] →
  records_inserted_is (λ data, length data) records
    (events_of (FairHealthFacility.insert_records records) w)
    (result_of (FairHealthFacility.insert_records records) w)
  ∧ records_inserted_is (λ data, length data) records
      (events_of (FairHealthPhysicians.insert_records records) w)
      (result_of (FairHealthPhysicians.insert_records records) w)
  ∧ records_inserted_is (λ _, length records) records
      (events_of (MedicareClinicalFees.insert_records records) w)
      (result_of (MedicareClinicalFees.insert_records records) w)
  ∧ records_inserted_is (λ _, length records) records
      (events_of (NewJerseyDOBI.insert_records records) w)
      (result_of (NewJerseyDOBI.insert_records records) w).
Proof.
  intros _. split_and!.
  - apply (shape_records_inserted _ _ _ _ _ _ (facility_follows records w));
      [apply len_or_0_length | done].
  - apply (shape_records_inserted _ _ _ _ _ _ (physicians_follows records w));
      [apply len_or_0_length | done].
  - by apply (shape_records_inserted _ _ _ _ _ _ (clinical_fees_follows records w)).
  - by apply (shape_records_inserted _ _ _ _ _ _ (dobi_follows records w)).
Qed.

Lemma C2_records_inserted_witness :
  [new_row; other_row] ≠ []
  ∧ records_inserted_is (λ _, 2) [new_row; other_row]
      (events_of (MedicareClinicalFees.insert_records [new_row; other_row]) one_of_two)
      (result_of (MedicareClinicalFees.insert_records [new_row; other_row]) one_of_two).
Proof.
  split; [done|].
  apply (C2_records_inserted [new_row; other_row] one_of_two). done.
Defined.

(** C3.  On an empty batch each handler returns at once: the summary has
    [status = no_records] and both counts 0, no request is sent (no
    select, archive, delete, insert or log write), and the store is as
    it was. *)
Theorem C3_empty_batch_short_circuit `{Store} (w : world) :
  short_circuit (FairHealthFacility.insert_records []) w
  ∧ short_circuit (FairHealthPhysicians.insert_records []) w
  ∧ short_circuit (MedicareClinicalFees.insert_records []) w
  ∧ short_circuit (NewJerseyDOBI.insert_records []) w.
Proof.
  destruct w as [s0 tr con clk].
  split_and!; (split; [eexists; split; [reflexivity|done] |]);
    unfold events_of; simpl; by rewrite drop_all.
Qed.

(** C4 fails in Fair Health Physicians: the summary of a successful run
    has no [status]; it has [success = True] in its place. *)
Theorem C4_physicians_success_without_status :
  ∃ result,
    result_of (FairHealthPhysicians.insert_records [new_row]) calm = Return result
    ∧ result !! "status" = None
    ∧ result !! "success" = Some (VBool true)
    ∧ ¬ run_result result.
Proof.
  exists (p_success physicians 1 1).
  assert (p_success physicians 1 1 !! "status" = None) as Hnone by reflexivity.
  split_and!; [reflexivity | done | reflexivity |].
  intros [[Hs|Hs] _]; rewrite Hnone in Hs; discriminate Hs.
Qed.

(** The other three handlers return the summary C4 describes. *)
Lemma run_result_three_handlers `{Store} (records : list Dict) (w : world)
    (result : Dict) :
  (result_of (FairHealthFacility.insert_records records) w = Return result
   ∨ result_of (MedicareClinicalFees.insert_records records) w = Return result
   ∨ result_of (NewJerseyDOBI.insert_records records) w = Return result) →
  run_result result.
Proof.
  intros [Hr|[Hr|Hr]].
  - apply (shape_run_result _ _ _ _ _ _ (facility_follows records w)); [| |done].
    + split_and!; eauto.
    + intros a n. split_and!; eauto.
  - apply (shape_run_result _ _ _ _ _ _ (clinical_fees_follows records w)); [| |done].
    + split_and!; eauto.
    + intros a n. split_and!; eauto.
  - apply (shape_run_result _ _ _ _ _ _ (dobi_follows records w)); [| |done].
    + split_and!; eauto.
    + intros a n. split_and!; eauto.
Qed.

(** C5.  The copy of a row sent to the historical table is the row with
    the key ['id'] removed and every other key as it was; a row without
    ['id'] is copied as it is.  In each handler, what is inserted into
    the historical table is the list of these copies of the rows the
    initial select returned. *)
Theorem C5_archived_without_id `{Store} (records : list Dict) (w : world) :
  (∀ record : Dict,
     historical_record record = delete "id" record
     ∧ historical_record record !! "id" = None
     ∧ (∀ k, k ≠ "id" → historical_record record !! k = record !! k)
     ∧ (record !! "id" = None → historical_record record = record))
  ∧ archives_without_id (events_of (FairHealthFacility.insert_records records) w)
  ∧ archives_without_id (events_of (FairHealthPhysicians.insert_records records) w)
  ∧ archives_without_id (events_of (MedicareClinicalFees.insert_records records) w)
  ∧ archives_without_id (events_of (NewJerseyDOBI.insert_records records) w).
Proof.
  split_and!.
  - intros record. rewrite historical_record_delete. split_and!.
    + done.
    + apply lookup_delete_eq.
    + intros k Hk. by apply lookup_delete_ne.
    + apply delete_id.
  - apply (shape_archives_without_id _ _ _ _ _ _ (facility_follows records w)).
  - apply (shape_archives_without_id _ _ _ _ _ _ (physicians_follows records w)).
  - apply (shape_archives_without_id _ _ _ _ _ _ (clinical_fees_follows records w)).
  - apply (shape_archives_without_id _ _ _ _ _ _ (dobi_follows records w)).
Qed.

(** C6, as stated, fails in Fair Health Physicians: the message of the
    failure entry starts with "FAILED", in capitals. *)
Lemma C6_counterexample :
  ¬ failure_logged "Failed" (λ e, e)
      (events_of (FairHealthPhysicians.insert_records [new_row]) select_down)
      (result_of (FairHealthPhysicians.insert_records [new_row]) select_down).
Proof.
  intros Hclaim.
  destruct (Hclaim 0 _ timed_out eq_refl eq_refl)
    as (_ & entry & lr & msg & Hlast & _ & Hmsg & Hpfx).
  change (Some (Insert log_table
                  (Row (p_entry physicians (p_err_msg physicians timed_out))),
                Return [])
          = Some (Insert log_table (Row entry), lr)) in Hlast.
  injection Hlast as <- <-.
  change (Some (VStr (p_err_msg physicians timed_out)) = Some (VStr msg)) in Hmsg.
  injection Hmsg as <-.
  change (false = true) in Hpfx. discriminate Hpfx.
Qed.

(** C6, amended.  On a non-empty batch, when a select, archive insert,
    delete or insert raises, the handler sends a failure entry to the log
    table after it, and then raises; the message of the entry starts with
    "Failed", and in Fair Health Physicians with "FAILED".  What it
    raises is the error itself in Fair Health Facility and Fair Health
    Physicians, and in New Jersey DOBI when the error is an [APIError];
    Medicare Clinical Fees, and New Jersey DOBI for any other error,
    raise a new [Exception] with the text of the error. *)
Theorem C6_failure_logged `{Store} (records : list Dict) (w : world) :
  records ≠ [] →
  failure_logged "Failed" (λ e, e)
    (events_of (FairHealthFacility.insert_records records) w)
    (result_of (FairHealthFacility.insert_records records) w)
  ∧ failure_logged "FAILED" (λ e, e)
      (events_of (FairHealthPhysicians.insert_records records) w)
      (result_of (FairHealthPhysicians.insert_records records) w)
  ∧ failure_logged "Failed" (wrapped MedicareClinicalFees.script_name)
      (events_of (MedicareClinicalFees.insert_records records) w)
      (result_of (MedicareClinicalFees.insert_records records) w)
  ∧ failure_logged "Failed"
      (λ e, if is_api_error e then e else wrapped NewJerseyDOBI.script_name e)
      (events_of (NewJerseyDOBI.insert_records records) w)
      (result_of (NewJerseyDOBI.insert_records records) w).
Proof.
  intros _. split_and!.
  - apply (shape_failure_logged _ _ _ _ _ _ (facility_follows records w));
      [done | apply facility_prefix | done].
  - by apply (shape_failure_logged _ _ _ _ _ _ (physicians_follows records w)).
  - by apply (shape_failure_logged _ _ _ _ _ _ (clinical_fees_follows records w)).
  - apply (shape_failure_logged _ _ _ _ _ _ (dobi_follows records w));
      [done | apply dobi_prefix | by intros []].
Qed.

Lemma C6_failure_logged_witness :
  [new_row] ≠ []
  ∧ failure_logged "Failed" (wrapped MedicareClinicalFees.script_name)
      (events_of (MedicareClinicalFees.insert_records [new_row]) select_down)
      (result_of (MedicareClinicalFees.insert_records [new_row]) select_down).
Proof.
  split; [done|].
  apply (C6_failure_logged [new_row] select_down). done.
Defined.

(** C7.  In each handler the log write catches the failure of its insert:
    it returns, and the failure is one ERROR line on the console.  So
    whether [insert_records] raises is decided by the other requests
    alone: it raises exactly when one of them raised.  And what it
    returns or raises is decided before the log write: a run whose log
    write raised ends as the run whose log write went through, with the
    same summary or the same exception. *)
Theorem C7_log_failure_contained `{Store} (records : list Dict) (w : world) :
  (sink_failure_contained FairHealthFacility._log_operation
     (λ e, "⚠️ Failed to write to logging_table: " +:+ str e)
   ∧ sink_failure_contained FairHealthPhysicians._log_operation
       (λ e, "⚠️ Failed to write to logging_table: " +:+ str e)
   ∧ sink_failure_contained MedicareClinicalFees._log_operation
       (λ e, "⚠️ Failed to write log entry: " +:+ str e)
   ∧ sink_failure_contained NewJerseyDOBI._log_operation
       (λ e, "⚠️ Failed to write log entry: " +:+ str e))
  ∧ outcome_ignores_sink
      (events_of (FairHealthFacility.insert_records records) w)
      (result_of (FairHealthFacility.insert_records records) w)
  ∧ outcome_ignores_sink
      (events_of (FairHealthPhysicians.insert_records records) w)
      (result_of (FairHealthPhysicians.insert_records records) w)
  ∧ outcome_ignores_sink
      (events_of (MedicareClinicalFees.insert_records records) w)
      (result_of (MedicareClinicalFees.insert_records records) w)
  ∧ outcome_ignores_sink
      (events_of (NewJerseyDOBI.insert_records records) w)
      (result_of (NewJerseyDOBI.insert_records records) w)
  ∧ result_ignores_sink FairHealthFacility.insert_records
  ∧ result_ignores_sink FairHealthPhysicians.insert_records
  ∧ result_ignores_sink MedicareClinicalFees.insert_records
  ∧ result_ignores_sink NewJerseyDOBI.insert_records.
Proof.
  split_and!.
  - apply facility_sink.
  - apply physicians_sink.
  - apply clinical_fees_sink.
  - apply dobi_sink.
  - apply (shape_outcome_ignores_sink _ _ _ _ _ _ (facility_follows records w)).
  - apply (shape_outcome_ignores_sink _ _ _ _ _ _ (physicians_follows records w)).
  - apply (shape_outcome_ignores_sink _ _ _ _ _ _ (clinical_fees_follows records w)).
  - apply (shape_outcome_ignores_sink _ _ _ _ _ _ (dobi_follows records w)).
  - intros batch w1 w2.
    apply (shape_result_ignores_sink _ _ _ _ _ _ _ _ _ _
             (facility_follows batch w1) (facility_follows batch w2)).
  - intros batch w1 w2.
    apply (shape_result_ignores_sink _ _ _ _ _ _ _ _ _ _
             (physicians_follows batch w1) (physicians_follows batch w2)).
  - intros batch w1 w2.
    apply (shape_result_ignores_sink _ _ _ _ _ _ _ _ _ _
             (clinical_fees_follows batch w1) (clinical_fees_follows batch w2)).
  - intros batch w1 w2.
    apply (shape_result_ignores_sink _ _ _ _ _ _ _ _ _ _
             (dobi_follows batch w1) (dobi_follows batch w2)).
Qed.

Lemma C7_log_failure_contained_witness :
  last (events_of (FairHealthFacility.insert_records [new_row]) sink_down)
  = Some (Insert log_table
            (Row (p_entry facility (create_log_message (p_script facility) 0 1 noon))),
          Raise timed_out)
  ∧ result_of (FairHealthFacility.insert_records [new_row]) sink_down
    = result_of (FairHealthFacility.insert_records [new_row]) one_of_two
  ∧ result_of (FairHealthFacility.insert_records [new_row]) one_of_two
    = Return (p_success facility 0 1).
Proof.
  split_and!; [reflexivity| |reflexivity].
  apply (C7_log_failure_contained [new_row] sink_down). reflexivity.
Defined.

(** C8.  When a request other than the log write raises [e], Medicare
    Clinical Fees raises a new [Exception] with the message "Failed to
    process Medicare Clinical Fees: " followed by [str(e)]; New Jersey
    DOBI does the same, with its own name, when [e] is not an
    [APIError]. *)
Theorem C8_failure_wrapped `{Store} (records : list Dict) (w : world) :
  failure_wrapped "Medicare Clinical Fees" (λ _, true)
    (events_of (MedicareClinicalFees.insert_records records) w)
    (result_of (MedicareClinicalFees.insert_records records) w)
  ∧ failure_wrapped "New Jersey DOBI" (λ e, negb (is_api_error e))
      (events_of (NewJerseyDOBI.insert_records records) w)
      (result_of (NewJerseyDOBI.insert_records records) w).
Proof.
  split.
  - by apply (shape_failure_wrapped _ _ _ _ _ _ (clinical_fees_follows records w)).
  - apply (shape_failure_wrapped _ _ _ _ _ _ (dobi_follows records w)).
    by intros [].
Qed.

(** C9.  In Medicare Clinical Fees and New Jersey DOBI every summary has
    [records_deleted]; on success it equals [records_archived], the
    number of rows the initial select returned, whatever the delete
    answered. *)
Theorem C9_deleted_is_archived `{Store} (records : list Dict) (w : world) :
  deleted_is_archived
    (events_of (MedicareClinicalFees.insert_records records) w)
    (result_of (MedicareClinicalFees.insert_records records) w)
  ∧ deleted_is_archived
      (events_of (NewJerseyDOBI.insert_records records) w)
      (result_of (NewJerseyDOBI.insert_records records) w).
Proof.
  split.
  - apply (shape_deleted_is_archived _ _ _ _ _ _ (clinical_fees_follows records w));
      eauto.
  - apply (shape_deleted_is_archived _ _ _ _ _ _ (dobi_follows records w)); eauto.
Qed.

(** ** The cleaned frame *)

Lemma append_nil (s : string) : "" +:+ s = s.
Proof. reflexivity. Qed.

Lemma append_cons (c : ascii) (s1 s2 : string) :
  String c s1 +:+ s2 = String c (s1 +:+ s2).
Proof. reflexivity. Qed.

Lemma append_assoc (s1 s2 s3 : string) : (s1 +:+ s2) +:+ s3 = s1 +:+ s2 +:+ s3.
Proof.
  induction s1 as [|c s1 IH]; [done|]. by rewrite !append_cons, IH.
Qed.

Lemma length_append (s1 s2 : string) :
  String.length (s1 +:+ s2) = String.length s1 + String.length s2.
Proof.
  induction s1 as [|c s1 IH]; [done|]. rewrite append_cons. simpl.
  by rewrite IH.
Qed.

Lemma prefix_append (p s : string) : String.prefix p (p +:+ s) = true.
Proof.
  induction p as [|c p IH]; [by destruct s|].
  rewrite append_cons. simpl. by destruct (ascii_dec c c).
Qed.

(** Whether [p] starts a text is decided by as many characters of the
    text as [p] has. *)
Lemma prefix_append_long (p s t : string) :
  String.length p ≤ String.length s →
  String.prefix p (s +:+ t) = String.prefix p s.
Proof.
  revert s. induction p as [|c p IH]; intros s Hlen.
  - by destruct s, t.
  - destruct s as [|d s]; [simpl in Hlen; lia|].
    rewrite append_cons. simpl in *.
    destruct (ascii_dec c d); [|done]. apply IH. lia.
Qed.

Section replacing.
Import MedicareASCAddenda.
Variables old new : string.

Lemma replace_go_skip (s1 s2 : string) :
  replace_go old new (String.length s1) (s1 +:+ s2) = replace_go old new 0 s2.
Proof.
  induction s1 as [|c s1 IH]; [by destruct s2|].
  rewrite append_cons. simpl. done.
Qed.

Lemma replace_go_none (s : string) :
  contains old s = false → replace_go old new 0 s = s.
Proof.
  induction s as [|c s IH]; [done|].
  cbn [contains]. intros [Hhere Hlater]%orb_false_iff.
  cbn [replace_go]. rewrite Hhere. by rewrite IH.
Qed.

(** The first [old] of a text is replaced, and the text before it is
    kept. *)
Lemma replace_go_first (init : string) (z : ascii) (before after : string) :
  old = init +:+ String z "" →
  contains old (before +:+ init) = false →
  replace_go old new 0 (before +:+ old +:+ after)
  = before +:+ new +:+ replace_go old new 0 after.
Proof.
  intros Hold. induction before as [|c before IH]; intros Hfirst.
  - rewrite !append_nil.
    assert (∃ a old', old = String a old') as (a & old' & Hold').
    { rewrite Hold. destruct init; [rewrite append_nil|rewrite append_cons]; eauto. }
    pose proof (prefix_append old after) as Hprefix.
    assert (old +:+ after = String a (old' +:+ after)) as Hsplit
      by (by rewrite Hold').
    assert (String.length old - 1 = String.length old') as Hlength
      by (rewrite Hold'; simpl; lia).
    rewrite Hsplit in *. cbn [replace_go].
    by rewrite Hprefix, Hlength, replace_go_skip.
  - rewrite !append_cons in *. cbn [contains] in Hfirst.
    apply orb_false_iff in Hfirst as [Hhere Hlater].
    cbn [replace_go].
    assert (String c (before +:+ old +:+ after)
            = String c (before +:+ init) +:+ String z "" +:+ after) as Hsplit.
    { rewrite Hold, append_cons. by rewrite !append_assoc. }
    assert (String.prefix old (String c (before +:+ old +:+ after)) = false)
      as ->.
    { rewrite Hsplit, prefix_append_long; [done|].
      rewrite Hold, !length_append. simpl. rewrite length_append. lia. }
    by rewrite IH.
Qed.
End replacing.

Section cleaned.
Import MedicareASCAddenda.
Context `{Python}.

Lemma cols_nan_to_none df col : col ∈ cols df → cols (nan_to_none df col) = cols df.
Proof.
intros Hin. unfold nan_to_none, assign.
destruct (existsb _ _); simpl; [|done]. by rewrite decide_True.
Qed.

Lemma length_positive_nonempty s : (0 <? String.length s) = true → s ≠ "".
Proof. by destruct s. Qed.

(** The three markers in lower case. *)
Lemma lower_markers :
lower SOURCE_HCPCS_COL = "hcpcs code"
∧ lower SOURCE_DESC_COL = "short descriptor"
∧ lower SOURCE_RATE_MARKER = "payment rate".
Proof. split_and!; by rewrite lower_ascii. Qed.

(** A header found is not the empty text: a marker is in no empty text. *)
Lemma find_column_truthy marker available_columns :
lower marker ≠ "" →
truthy (find_column marker available_columns)
= bool_decide (is_Some (find_column marker available_columns)).
Proof.
intros Hmarker. unfold find_column.
destruct (list_find _ _) as [[i col]|] eqn:Hfind.
- apply list_find_Some in Hfind as (_ & Hcol & _).
  destruct col as [|a col].
  + rewrite (lower_ascii "") in Hcol by done. simpl in Hcol.
    destruct (lower marker); done.
  + symmetry. apply bool_decide_eq_true_2. by eexists.
- symmetry. apply bool_decide_eq_false_2. by intros [? ?].
Qed.

Lemma find_marker_truthy available_columns :
truthy (find_column SOURCE_HCPCS_COL available_columns)
= bool_decide (is_Some (find_column SOURCE_HCPCS_COL available_columns))
∧ truthy (find_column SOURCE_DESC_COL available_columns)
  = bool_decide (is_Some (find_column SOURCE_DESC_COL available_columns))
∧ truthy (find_column SOURCE_RATE_MARKER available_columns)
  = bool_decide (is_Some (find_column SOURCE_RATE_MARKER available_columns)).
Proof.
destruct lower_markers as (H1 & H2 & H3).
split_and!; apply find_column_truthy; by rewrite ?H1, ?H2, ?H3.
Qed.


Lemma selection_three labels h d r ps :
selection labels [h; d; r] = inr ps → length ps = 3 →
∃ p1 p2 p3,
  positions labels h = [p1] ∧ positions labels d = [p2]
  ∧ positions labels r = [p3] ∧ ps = [p1; p2; p3].
Proof.
simpl.
destruct (positions labels h) as [|p1 l1]; [done|].
destruct (positions labels d) as [|p2 l2]; [done|].
destruct (positions labels r) as [|p3 l3]; [done|].
intros [= <-]. rewrite app_nil_r. simpl. rewrite !length_app. simpl.
rewrite length_app. simpl. intros Hlen.
destruct l1; [|simpl in Hlen; lia]. destruct l2; [|simpl in Hlen; lia].
destruct l3; [|simpl in Hlen; lia]. by eexists _, _, _.
Qed.


Lemma filter_fmap_swap {A B} (f : A → B) (m : B → bool) (l : list A) :
List.filter m (f <$> l) = f <$> List.filter (λ a, m (f a)) l.
Proof.
induction l as [|a l IH]; csimpl; [done|].
destruct (m (f a)); csimpl; by rewrite IH.
Qed.

Lemma filter_filter_andb {A} (f g : A → bool) (l : list A) :
List.filter g (List.filter f l) = List.filter (λ a, f a && g a) l.
Proof.
induction l as [|a l IH]; simpl; [done|].
destruct (f a); simpl; [|done]. destruct (g a); by rewrite IH.
Qed.

Lemma filter_all {A} (m : A → bool) (l : list A) :
(∀ a, a ∈ l → m a = true) → List.filter m l = l.
Proof.
intros Hall. apply forallb_filter_id, forallb_forall.
intros a Ha. by apply Hall, list_elem_of_In.
Qed.

Lemma existsb_false {A} (m : A → bool) (l : list A) (a : A) :
existsb m l = false → a ∈ l → m a = false.
Proof.
intros Hnone Ha. destruct (m a) eqn:Hm; [|done].
assert (existsb m l = true) as Hsome; [|congruence].
apply existsb_exists. exists a. by split; [apply list_elem_of_In|].
Qed.

(** ** [pd.to_numeric] *)

Lemma as_float_number c c' :
as_float c = Some c' → c' = NaN ∨ ∃ n, c' = Num n.
Proof.
destruct c as [| |s|[z|m e|b]|b]; simpl; try (intros [= <-]; eauto).
- destruct (parse_number s) as [[z|m e|b]|]; intros [= <-]; eauto.
- destruct (float_of_int z); intros [= <-]; eauto.
Qed.

(** A column under [pd.to_numeric] keeps its length, and comes out as
    numbers and [NaN], or as the flags it was. *)
Lemma to_numeric_cells (column rates : list cell) :
to_numeric column = Some rates →
length rates = length column
∧ (Forall (λ c, c = NaN ∨ ∃ n, c = Num n) rates
   ∨ Forall (λ c, ∃ b, c = Bool b) rates).
Proof.
unfold to_numeric. destruct (mapM as_float column) as [floats|] eqn:Hfloats;
  [|done].
simpl. intros [= <-]. apply mapM_Some in Hfloats.
destruct (seen_float column) eqn:Hfloat.
{ split; [symmetry; by eapply Forall2_length|]. left.
  clear Hfloat. induction Hfloats as [|c c' ? ? Hc]; constructor; [|done].
  by eapply as_float_number. }
apply orb_false_iff in Hfloat as [Hfloat _].
destruct (seen_int column) eqn:Hint.
- split; [by rewrite length_fmap|]. left.
  apply Forall_fmap, Forall_forall. intros c Hc.
  pose proof (existsb_false _ _ _ Hfloat Hc) as Hc'. simpl.
  unfold as_int, is_float in *.
  destruct c as [| |s|[z|m e|b]|b]; simpl in *; eauto; try done.
  destruct (parse_number s) as [[z|m e|b]|]; eauto; done.
- split; [done|]. right.
  apply Forall_forall. intros c Hc.
  pose proof (existsb_false _ _ _ Hfloat Hc) as Hc'.
  pose proof (existsb_false _ _ _ Hint Hc) as Hc''. simpl in Hc''.
  apply bool_decide_eq_false in Hc''.
  unfold is_float in Hc'.
  destruct c as [| |s|n|b]; eauto;
    destruct (int_of _) as [z|] eqn:Hz; try done; by destruct Hc''.
Qed.

(** ** The steps of [clean_data] *)

(** A turn of the loop, row by row, on a frame whose rows all hold the
    column. *)
Lemma recs_nan_to_none df col :
(∀ row, row ∈ recs df → is_Some (row !! col)) →
recs (nan_to_none df col)
= (λ row, <[col := denull (at_ row col)]> row) <$> recs df.
Proof.
intros Hcol. unfold nan_to_none. destruct (existsb _ _) eqn:Hany; [done|].
symmetry. rewrite <- (list_fmap_id (recs df)) at 2.
apply list_fmap_ext. intros _ row Hrow%list_elem_of_lookup_2.
destruct (Hcol row Hrow) as [c Hc].
assert (at_ row col = c) as Hat by (unfold at_; by rewrite Hc).
pose proof (existsb_false _ _ _ Hany Hrow) as Hnull. simpl in Hnull.
unfold denull. rewrite Hnull, Hat. by apply insert_id.
Qed.

Lemma recs_turn df col {A} (F : A → gmap string cell) (l : list A) :
recs df = F <$> l →
(∀ a, is_Some (F a !! col)) →
recs (nan_to_none df col) = (λ a, turn col (F a)) <$> l.
Proof.
intros Hrecs Hcol. rewrite recs_nan_to_none.
- rewrite Hrecs. by rewrite <- list_fmap_compose.
- rewrite Hrecs. intros row (a & -> & _)%list_elem_of_fmap. apply Hcol.
Qed.

Lemma after_loop rel_date_value c1 c2 c3 rate :
isnull c1 = false →
turn "rel_date"
  (turn "data_type"
     (turn "80th"
        (turn "code_description"
           (turn "code"
              (<["80th" := rate]> (selected rel_date_value c1 c2 c3))))))
= {[ "code" := c1;
     "code_description" := denull c2;
     "80th" := denull rate;
     "data_type" := Str "Medicare Facility";
     "rel_date" := Str rel_date_value ]}.
Proof. intros Hnull. destruct c1; try done; reflexivity. Qed.

(** The frame before its rates are made numbers: the rows of the sheet
    with a code, each with its three cells and the two constants. *)
Lemma steps_before_rates (sheet : list (list cell)) (p1 p2 p3 : nat)
  (rel_date_value : string) :
recs
  (keep (λ row, 0 <? String.length (strip (astype_str (at_ row "code"))))
     (keep (λ row, negb (isnull (at_ row "code")))
        (assign "rel_date" (λ _, Str rel_date_value)
           (assign "data_type" (λ _, Str "Medicare Facility")
              {| cols := required_keys;
                 recs := (λ row,
                            list_to_map
                              (zip required_keys
                                 ((λ p, default NaN (row !! p))
                                  <$> [p1; p2; p3])))
                         <$> sheet |}))))
= (λ row, selected rel_date_value (default NaN (row !! p1))
            (default NaN (row !! p2)) (default NaN (row !! p3)))
  <$> List.filter (λ row, valid_code (default NaN (row !! p1))) sheet.
Proof.
unfold assign, keep; simpl.
rewrite <- !list_fmap_compose.
rewrite filter_filter_andb, filter_fmap_swap.
reflexivity.
Qed.

(** The steps of [clean_data] from there on, in one pass. *)
Lemma steps_row_by_row (t : Table) (valid : list (list cell))
  (rates : list cell) (p1 p2 p3 : nat) (rel_date_value : string) :
cols t = ["code"; "code_description"; "80th"; "data_type"; "rel_date"] →
recs t = (λ row, selected rel_date_value (default NaN (row !! p1))
                   (default NaN (row !! p2)) (default NaN (row !! p3)))
         <$> valid →
Forall (λ row, isnull (default NaN (row !! p1)) = false) valid →
let t1 := assign_column "80th" rates t in
let t' := foldl nan_to_none t1 (cols t1) in
keep (λ row, negb (forallb (λ col, isnull (at_ row col)) (cols t'))) t'
= {| cols := ["code"; "code_description"; "80th"; "data_type"; "rel_date"];
     recs := zip_with (cleaned_row rel_date_value p1 p2) valid rates |}.
Proof.
intros Hcols Hrecs Hvalid t1 t'.
set (F0 := λ a : list cell * cell,
       <["80th" := a.2]>
         (selected rel_date_value (default NaN (a.1 !! p1))
            (default NaN (a.1 !! p2)) (default NaN (a.1 !! p3)))).
assert (recs t1 = F0 <$> zip valid rates) as H0.
{ unfold t1, assign_column; simpl. rewrite Hrecs, zip_with_fmap_l, zip_with_zip.
  apply list_fmap_ext. by intros _ [row rate] _. }
assert (cols t1 = ["code"; "code_description"; "80th"; "data_type"; "rel_date"])
  as Hcols1.
{ unfold t1, assign_column; simpl. rewrite Hcols. reflexivity. }
unfold t'. rewrite Hcols1. simpl foldl. clearbody t1. clear t'.
set (t2 := nan_to_none t1 "code").
set (t3 := nan_to_none t2 "code_description").
set (t4 := nan_to_none t3 "80th").
set (t5 := nan_to_none t4 "data_type").
set (t6 := nan_to_none t5 "rel_date").
assert (cols t2 = cols t1) as Hc2
  by (apply cols_nan_to_none; rewrite Hcols1; apply list_elem_of_In; simpl; tauto).
assert (cols t3 = cols t2) as Hc3
  by (apply cols_nan_to_none; rewrite Hc2, Hcols1;
      apply list_elem_of_In; simpl; tauto).
assert (cols t4 = cols t3) as Hc4
  by (apply cols_nan_to_none; rewrite Hc3, Hc2, Hcols1;
      apply list_elem_of_In; simpl; tauto).
assert (cols t5 = cols t4) as Hc5
  by (apply cols_nan_to_none; rewrite Hc4, Hc3, Hc2, Hcols1;
      apply list_elem_of_In; simpl; tauto).
assert (cols t6 = cols t5) as Hc6
  by (apply cols_nan_to_none; rewrite Hc5, Hc4, Hc3, Hc2, Hcols1;
      apply list_elem_of_In; simpl; tauto).
pose proof (recs_turn t1 "code" F0 _ H0 (λ a, ltac:(by eexists))) as H2.
fold t2 in H2.
pose proof (recs_turn t2 "code_description" _ _ H2 (λ a, ltac:(by eexists)))
  as H3.
fold t3 in H3.
pose proof (recs_turn t3 "80th" _ _ H3 (λ a, ltac:(by eexists))) as H4.
fold t4 in H4.
pose proof (recs_turn t4 "data_type" _ _ H4 (λ a, ltac:(by eexists))) as H5.
fold t5 in H5.
pose proof (recs_turn t5 "rel_date" _ _ H5 (λ a, ltac:(by eexists))) as H6.
fold t6 in H6.
unfold keep. rewrite Hc6, Hc5, Hc4, Hc3, Hc2, Hcols1. f_equal.
rewrite H6, filter_fmap_swap, filter_all.
- rewrite (zip_with_zip (cleaned_row rel_date_value p1 p2)).
  apply list_fmap_ext. intros _ [row rate] Hrow%list_elem_of_lookup_2.
  apply elem_of_zip_l in Hrow. simpl in Hrow.
  rewrite Forall_forall in Hvalid. specialize (Hvalid row Hrow).
  unfold F0. simpl. by rewrite after_loop.
- intros a _. cbv beta iota delta [forallb].
  destruct (isnull (at_ _ "code")), (isnull (at_ _ "code_description")),
    (isnull (at_ _ "80th")); reflexivity.
Qed.

(** When [clean_data] returns, the three headers were found, each labels
    one column, and the frame is made of the rows with a code, each with
    its rate out of the column of rates as [pd.to_numeric] gives it. *)
Lemma clean_data_returns_rows (df : DataFrame) (out : Table) :
clean_data df = Returns out →
∃ h d r p1 p2 p3 rates,
  find_column SOURCE_HCPCS_COL (label_str <$> columns df) = Some h
  ∧ find_column SOURCE_DESC_COL (label_str <$> columns df) = Some d
  ∧ find_column SOURCE_RATE_MARKER (label_str <$> columns df) = Some r
  ∧ positions (columns df) h = [p1]
  ∧ positions (columns df) d = [p2]
  ∧ positions (columns df) r = [p3]
  ∧ to_numeric ((λ row, default NaN (row !! p3)) <$> kept p1 df) = Some rates
  ∧ out = {| cols := ["code"; "code_description"; "80th"; "data_type";
                      "rel_date"];
             recs := zip_with (cleaned_row (rel_date_of r) p1 p2)
                       (kept p1 df) rates |}.
Proof.
destruct (find_marker_truthy (label_str <$> columns df)) as (Ht1 & Ht2 & Ht3).
unfold clean_data. rewrite Ht1, Ht2, Ht3. clear Ht1 Ht2 Ht3.
destruct (find_column SOURCE_HCPCS_COL _) as [h|];
  destruct (find_column SOURCE_DESC_COL _) as [d|];
  destruct (find_column SOURCE_RATE_MARKER _) as [r|];
  try (intros; discriminate).
simpl List.filter. simpl fmap. simpl default.
destruct (selection _ _) as [name|ps] eqn:Hsel; [intros; discriminate|].
destruct (negb _) eqn:Hlen; [intros; discriminate|].
apply negb_false_iff, Nat.eqb_eq in Hlen.
destruct (selection_three _ _ _ _ _ Hsel Hlen)
  as (p1 & p2 & p3 & H1 & H2 & H3 & ->).
pose proof (steps_before_rates (rows df) p1 p2 p3 (rel_date_of r)) as Hbefore.
set (t := keep _ _) in *.
assert (column "80th" t = (λ row, default NaN (row !! p3)) <$> kept p1 df)
  as Hcolumn.
{ unfold column. rewrite Hbefore, <- list_fmap_compose.
  apply list_fmap_ext. by intros _ row _. }
rewrite Hcolumn.
destruct (to_numeric _) as [rates|] eqn:Hrates; [|intros; discriminate].
intros [= <-]. exists h, d, r, p1, p2, p3, rates. split_and!; try done.
apply (steps_row_by_row t _ rates p1 p2 p3 (rel_date_of r)); [done|done|].
apply Forall_forall. intros row [_ Hvalid]%list_elem_of_In%filter_In.
by apply andb_true_iff in Hvalid as [Hnull%negb_true_iff _].
Qed.


(** What [rel_date_of] makes of a header. *)
Lemma rel_date_of_date_text (header : string) :
date_text_of header (rel_date_of header).
Proof.
split; [done|]. destruct lower_markers as (_ & _ & Hmarker).
rewrite Hmarker. intros before after Hheader Hfirst Hlast.
unfold rel_date_of, replace. rewrite Hheader, Hmarker.
rewrite (replace_go_first _ _ "payment rat" "e"%char) by done.
by rewrite replace_go_none.
Qed.

(** A row of the frame [clean_data] returns. *)
Lemma cleaned_row_clean (rel_date_value : string) (p1 p2 : nat)
  (row : list cell) (rate : cell) (a_rate : cell → Prop) :
valid_code (default NaN (row !! p1)) = true →
a_rate (denull rate) →
clean_row a_rate rel_date_value (cleaned_row rel_date_value p1 p2 row rate).
Proof.
intros [Hnull%negb_true_iff Hblank%length_positive_nonempty]%andb_true_iff Hrate.
by split_and!.
Qed.

(** A row of the returned frame is the record of a row that was kept
    and of its rate. *)
Lemma elem_of_cleaned (rel_date_value : string) (p1 p2 : nat)
  (df : DataFrame) (rates : list cell) (row : gmap string cell) :
row ∈ zip_with (cleaned_row rel_date_value p1 p2) (kept p1 df) rates →
∃ sheet_row rate,
  row = cleaned_row rel_date_value p1 p2 sheet_row rate
  ∧ valid_code (default NaN (sheet_row !! p1)) = true
  ∧ rate ∈ rates.
Proof.
intros (sheet_row & rate & -> & Hkept & Hrate)%elem_of_zip_with.
exists sheet_row, rate. split_and!; [done| |done].
by apply list_elem_of_In, filter_In in Hkept as [_ Hvalid].
Qed.

(** C10, amended.  When [clean_data] returns a frame, its columns are
  [code], [code_description], [80th], [data_type] and [rel_date], and
  in every row [data_type] is 'Medicare Facility', [code] is not null
  and not empty once stripped, [rel_date] is the date text taken from
  the header of the payment-rate column, and [80th] is a number or
  [None], never [NaN]; or it is a flag, and then the rate of every row
  is a flag. *)
Theorem C10_clean_data_rows (df : DataFrame) (out : Table) :
clean_data df = Returns out →
∃ header date,
  find_column SOURCE_RATE_MARKER (label_str <$> columns df) = Some header
  ∧ date_text_of header date
  ∧ cols out = ["code"; "code_description"; "80th"; "data_type"; "rel_date"]
  ∧ (∀ row, row ∈ recs out → clean_row a_number_or_flag date row)
  ∧ flags_together out.
Proof.
intros (h & d & r & p1 & p2 & p3 & rates & _ & _ & Hr & _ & _ & _ & Hrates & ->)
  %clean_data_returns_rows.
exists r, (rel_date_of r).
apply to_numeric_cells in Hrates as [_ Hrates].
split_and!; [done| |done| |].
- apply rel_date_of_date_text.
- intros row (sheet_row & rate & -> & Hvalid & Hrate)%elem_of_cleaned.
  apply cleaned_row_clean; [done|].
  unfold a_number_or_flag, a_number.
  destruct Hrates as [Hrates|Hrates]; rewrite Forall_forall in Hrates.
  + destruct (Hrates rate Hrate) as [->|[n ->]]; simpl; eauto.
  + destruct (Hrates rate Hrate) as [b ->]; simpl; eauto.
- intros (flagged & b & (sheet_row & rate & -> & _ & Hrate)%elem_of_cleaned & Hb)
    row (sheet_row' & rate' & -> & _ & Hrate')%elem_of_cleaned.
  change (denull rate = Bool b) in Hb.
  destruct Hrates as [Hrates|Hrates]; rewrite Forall_forall in Hrates.
  + destruct (Hrates rate Hrate) as [->|[x ->]]; discriminate Hb.
  + destruct (Hrates rate' Hrate') as [b' ->]. by exists b'.
Qed.



(** X11.  No cell of a returned frame is [NaN]: every row has a cell for
    every column of the frame, and the cell is [None] or a value. *)
Theorem X11_no_nan (df : DataFrame) (out : Table) :
clean_data df = Returns out →
∀ row col, row ∈ recs out → col ∈ cols out →
  ∃ c, row !! col = Some c ∧ c ≠ NaN.
Proof.
intros (h & d & r & p1 & p2 & p3 & rates & _ & _ & _ & _ & _ & _ & _ & ->)
  %clean_data_returns_rows.
simpl. intros row col (sheet_row & rate & -> & Hvalid & _)%elem_of_cleaned Hcol.
apply andb_true_iff in Hvalid as [Hnull%negb_true_iff _].
unfold cleaned_row.
apply list_elem_of_In in Hcol. simpl in Hcol.
destruct Hcol as [<-|[<-|[<-|[<-|[<-|[]]]]]]; eexists; (split; [reflexivity|]).
- intros Hnan. by rewrite Hnan in Hnull.
- unfold denull. by destruct (default NaN (sheet_row !! p2)).
- unfold denull. by destruct rate.
- done.
- done.
Qed.
End cleaned.

(** C10, as stated, fails on a sheet whose rates are flags:
    [pd.to_numeric] leaves a column of flags as it is, and the rate of
    a row of the frame is [True]. *)
Lemma C10_counterexample :
  ∃ out row,
    @MedicareASCAddenda.clean_data MedicareASCAddenda.plain_python flag_sheet
    = MedicareASCAddenda.Returns out
    ∧ row ∈ MedicareASCAddenda.recs out
    ∧ ∀ date, ¬ @clean_row MedicareASCAddenda.plain_python a_number date row.
Proof.
  exists flag_cleaned, flag_row. split_and!.
  - reflexivity.
  - by left.
  - intros date (_ & _ & _ & _ & [Hrate|[n Hrate]]);
      change (MedicareASCAddenda.Bool true = MedicareASCAddenda.None_) in Hrate
      || change (MedicareASCAddenda.Bool true = MedicareASCAddenda.Num n) in Hrate;
      discriminate Hrate.
Qed.

Lemma C10_clean_data_rows_witness :
  @MedicareASCAddenda.clean_data MedicareASCAddenda.plain_python sample_sheet
  = MedicareASCAddenda.Returns sample_cleaned
  ∧ ∃ header date,
      @MedicareASCAddenda.find_column MedicareASCAddenda.plain_python
        MedicareASCAddenda.SOURCE_RATE_MARKER
        (MedicareASCAddenda.label_str <$> MedicareASCAddenda.columns sample_sheet)
      = Some header
      ∧ @date_text_of MedicareASCAddenda.plain_python header date
      ∧ MedicareASCAddenda.cols sample_cleaned
        = ["code"; "code_description"; "80th"; "data_type"; "rel_date"]
      ∧ (∀ row, row ∈ MedicareASCAddenda.recs sample_cleaned →
           @clean_row MedicareASCAddenda.plain_python a_number_or_flag date row)
      ∧ flags_together sample_cleaned.
Proof.
  split; [reflexivity|].
  apply (@C10_clean_data_rows MedicareASCAddenda.plain_python sample_sheet
           sample_cleaned).
  reflexivity.
Defined.



Lemma X11_no_nan_witness :
  @MedicareASCAddenda.clean_data MedicareASCAddenda.plain_python sample_sheet
  = MedicareASCAddenda.Returns sample_cleaned
  ∧ ∀ row col,
      row ∈ MedicareASCAddenda.recs sample_cleaned →
      col ∈ MedicareASCAddenda.cols sample_cleaned →
      ∃ c, row !! col = Some c ∧ c ≠ MedicareASCAddenda.NaN.
Proof.
  split; [reflexivity|].
  apply (@X11_no_nan MedicareASCAddenda.plain_python sample_sheet sample_cleaned).
  reflexivity.
Defined.

Example rel_date_of_header :
  @MedicareASCAddenda.rel_date_of MedicareASCAddenda.plain_python
    "July 2025 Payment Rate"
  = "July 2025"
  ∧ @MedicareASCAddenda.rel_date_of MedicareASCAddenda.plain_python
      "payment rate  JANUARY 2026"
    = "January 2026".
Proof. split; reflexivity. Qed.

Example strip_reads_utf8 :
  MedicareASCAddenda.strip
    (MedicareASCAddenda.of_bytes [194; 160; 32; 65; 32; 226; 128; 175])
  = "A"
  ∧ MedicareASCAddenda.strip (MedicareASCAddenda.of_bytes [194; 160; 32]) = "".
Proof. split; reflexivity. Qed.

(** A column with a null comes out as floats, a column of integers and
    flags as integers, and a column of flags as it is. *)
Example to_numeric_by_column :
  @MedicareASCAddenda.to_numeric MedicareASCAddenda.plain_python
    [MedicareASCAddenda.Str "12"; MedicareASCAddenda.NaN;
     MedicareASCAddenda.Bool true]
  = Some [MedicareASCAddenda.Num (MedicareASCAddenda.Float 12 0);
          MedicareASCAddenda.NaN;
          MedicareASCAddenda.Num (MedicareASCAddenda.Float 1 0)]
  ∧ @MedicareASCAddenda.to_numeric MedicareASCAddenda.plain_python
      [MedicareASCAddenda.Str "12"; MedicareASCAddenda.Bool true]
    = Some [MedicareASCAddenda.Num (MedicareASCAddenda.Int 12);
            MedicareASCAddenda.Num (MedicareASCAddenda.Int 1)]
  ∧ @MedicareASCAddenda.to_numeric MedicareASCAddenda.plain_python
      [MedicareASCAddenda.Bool true; MedicareASCAddenda.Bool false]
    = Some [MedicareASCAddenda.Bool true; MedicareASCAddenda.Bool false]
  ∧ @MedicareASCAddenda.to_numeric MedicareASCAddenda.plain_python
      [MedicareASCAddenda.Num (MedicareASCAddenda.Int (2 ^ 64 + 1))]
    = Some [MedicareASCAddenda.Num (MedicareASCAddenda.Float (2 ^ 52) 12)].
Proof. split_and!; reflexivity. Qed.

(** ** Runs against the scripted store *)

(** One live row: it is archived without its ['id'], deleted, and the new
    row takes its place; the log entry counts both. *)
Example facility_replaces_the_live_row :
  events_of (FairHealthFacility.insert_records [new_row]) calm
  = [(Select live_table "*"
        (in_ "data_type" ["Facility USA"; "Facility 070"; "Facility 074"]),
      Return [old_row]);
     (Insert archive_table (Rows [delete "id" old_row]), Return [old_row]);
     (Delete live_table
        (in_ "data_type" ["Facility USA"; "Facility 070"; "Facility 074"]),
      Return []);
     (Insert live_table (Rows [new_row]), Return [new_row]);
     (Insert log_table
        (Row {[ "script" := VStr "Fairhealth Facility";
                "message" :=
                  VStr ("Fairhealth Facility: Archived 1 old records and "
                        +:+ "inserted 1 new records "
                        +:+ "(November 04, 2026 at 12:00 PM)") ]}),
      Return [])]
  ∧ result_of (FairHealthFacility.insert_records [new_row]) calm
    = Return {[ "status" := VStr "success"; "records_inserted" := VInt 1;
                "records_archived" := VInt 1; "table" := VStr live_table ]}.
Proof. split; reflexivity. Qed.

(** The archive insert raises: the handler logs the failure and raises,
    and the live row is not deleted. *)
Example facility_keeps_the_live_row :
  events_of (FairHealthFacility.insert_records [new_row]) archive_down
  = [(Select live_table "*"
        (in_ "data_type" ["Facility USA"; "Facility 070"; "Facility 074"]),
      Return [old_row]);
     (Insert archive_table (Rows [delete "id" old_row]), Raise timed_out);
     (Insert log_table
        (Row {[ "script" := VStr "Fairhealth Facility";
                "message" := VStr "Failed: Unexpected Error: timed out" ]}),
      Return [])]
  ∧ result_of (FairHealthFacility.insert_records [new_row]) archive_down
    = Raise timed_out.
Proof. split; reflexivity. Qed.

(** The log write raises after a successful replacement: the summary is
    the one of a success, and the console has the line. *)
Example facility_survives_the_sink :
  result_of (FairHealthFacility.insert_records [new_row]) sink_down
  = Return {[ "status" := VStr "success"; "records_inserted" := VInt 1;
              "records_archived" := VInt 0; "table" := VStr live_table ]}
  ∧ lines_of (FairHealthFacility.insert_records [new_row]) sink_down
    = ["⚠️ Failed to write to logging_table: timed out"].
Proof. split; reflexivity. Qed.

(** The select raises in Medicare Clinical Fees and in New Jersey DOBI:
    the caller sees a new [Exception]. *)
Example select_failure_is_wrapped :
  result_of (MedicareClinicalFees.insert_records [new_row]) select_down
  = Raise (PyExc "Exception" "Failed to process Medicare Clinical Fees: timed out")
  ∧ result_of (NewJerseyDOBI.insert_records [new_row]) select_down
    = Raise (PyExc "Exception" "Failed to process New Jersey DOBI: timed out").
Proof. split; reflexivity. Qed.

(** Medicare Clinical Fees on one live row: [records_deleted] is the
    number of rows selected, though the delete answered with no rows. *)
Example clinical_fees_counts_deleted :
  result_of (MedicareClinicalFees.insert_records [new_row]) calm
  = Return {[ "status" := VStr "success"; "records_inserted" := VInt 1;
              "records_archived" := VInt 1; "records_deleted" := VInt 1;
              "table" := VStr live_table;
              "script_name" := VStr "Medicare Clinical Fees" ]}.
Proof. reflexivity. Qed.

Example thousands_are_grouped :
  fmt_comma 0 = "0" ∧ fmt_comma 999 = "999" ∧ fmt_comma 1000 = "1,000"
  ∧ fmt_comma 4321 = "4,321".
Proof. split_and!; reflexivity. Qed.

(** ** More of what every shape guarantees *)

Section shape_more.
Variable P : profile.
Variable records : list Dict.
Variable t : string.
Variable evs : list event.
Variable lines : list string.
Variable out : outcome Dict.
Hypothesis Hshape : shape P records t (evs, lines, out).
Hypothesis Hrecords : records ≠ [].

Lemma shape_one_log_entry (script : string) :
(∀ msg, p_entry P msg = {[ "script" := VStr script; "message" := VStr msg ]}) →
one_log_entry script evs.
Proof.
intros Hentry. invert_shape Hshape; try done; rewrite Hentry;
  match goal with
  | |- one_log_entry _ [?a; (_, ?lr)] => eexists [a], _, lr
  | |- one_log_entry _ [?a; ?b; (_, ?lr)] => eexists [a; b], _, lr
  | |- one_log_entry _ [?a; ?b; ?c; (_, ?lr)] => eexists [a; b; c], _, lr
  | |- one_log_entry _ [?a; ?b; ?c; ?d; (_, ?lr)] => eexists [a; b; c; d], _, lr
  end;
  (split; [reflexivity|]); repeat constructor.
Qed.

Lemma shape_stops_at_failure : stops_at_failure evs.
Proof.
clear Hrecords. intros i q e Hi Hq. invert_shape Hshape; index i; done.
Qed.

Lemma shape_runs_in_order : runs_in_order (p_filter P) records evs out.
Proof.
intros result ->. invert_shape Hshape; try done.
- eexists [], [], [], _, _. split; reflexivity.
- rewrite records_for_history_fmap.
  eexists (_ :: _), _, _, _, _. split; reflexivity.
Qed.

Lemma shape_skips_archive : skips_archive evs.
Proof.
clear Hrecords. intros f H0 i q r Hi.
invert_shape Hshape; simplify_eq/=; index i; done.
Qed.

Lemma shape_archived_is_selected :
(∀ a n, p_success P a n !! "records_archived" = Some (VInt (Z.of_nat a))) →
archived_is_selected evs out.
Proof.
intros Harch result ->. invert_shape Hshape; try done;
  eexists _, _; (split; [reflexivity|]); by rewrite Harch.
Qed.

Lemma shape_log_agrees :
(∀ msg, p_entry P msg !! "message" = Some (VStr msg)) →
(∀ a n, p_success P a n !! "records_archived" = Some (VInt (Z.of_nat a))) →
(∀ a n, p_success P a n !! "records_inserted" = Some (VInt (Z.of_nat n))) →
log_agrees (p_script P) t evs out.
Proof.
intros Hentry Harch Hins result ->. invert_shape Hshape; try done;
  eexists _, _, _, _; split_and!; eauto.
Qed.

Lemma shape_failure_reraised (only : exn → bool) :
(∀ e, only e = true → p_err_raise P e = e) →
failure_reraised only evs out.
Proof.
clear Hrecords. intros Hraise i q e Hi Hq Honly.
invert_shape Hshape; index i; by rewrite Hraise.
Qed.

Lemma shape_confined : confined evs.
Proof.
clear Hrecords. invert_shape Hshape; try done;
  repeat apply Forall_cons_2; try apply Forall_nil; simpl; eauto.
Qed.
End shape_more.

(** ** More about the four handlers *)

(** X1.  A handler given a non-empty batch sends exactly one entry to the
    log table, as its last request, whether the run returns or raises;
    the entry has the handler's script name and a message, and nothing
    else. *)
Theorem X1_one_log_entry `{Store} (records : list Dict) (w : world) :
  records ≠ [] →
  in_all_handlers (λ run script _, one_log_entry script (events_of (run records) w)).
Proof.
  intros Hrecords. unfold in_all_handlers. split_and!.
  - by apply (shape_one_log_entry _ _ _ _ _ _ (facility_follows records w)).
  - by apply (shape_one_log_entry _ _ _ _ _ _ (physicians_follows records w)).
  - by apply (shape_one_log_entry _ _ _ _ _ _ (clinical_fees_follows records w)).
  - by apply (shape_one_log_entry _ _ _ _ _ _ (dobi_follows records w)).
Qed.

Lemma X1_one_log_entry_witness :
  [new_row] ≠ []
  ∧ in_all_handlers
      (λ run script _, one_log_entry script (events_of (run [new_row]) archive_down)).
Proof.
  split; [done|]. apply (X1_one_log_entry [new_row] archive_down). done.
Defined.

(** X2.  When a select, archive insert, delete or insert raises, the
    handler sends the failure entry and nothing more: no request is
    retried, and what was already written is not undone. *)
Theorem X2_stops_at_failure `{Store} (records : list Dict) (w : world) :
  in_all_handlers (λ run _ _, stops_at_failure (events_of (run records) w)).
Proof.
  unfold in_all_handlers. split_and!.
  - apply (shape_stops_at_failure _ _ _ _ _ _ (facility_follows records w)).
  - apply (shape_stops_at_failure _ _ _ _ _ _ (physicians_follows records w)).
  - apply (shape_stops_at_failure _ _ _ _ _ _ (clinical_fees_follows records w)).
  - apply (shape_stops_at_failure _ _ _ _ _ _ (dobi_follows records w)).
Qed.

(** X3.  When the initial select finds no live row, the handler sends
    nothing to the historical table and deletes nothing. *)
Theorem X3_skips_archive `{Store} (records : list Dict) (w : world) :
  in_all_handlers (λ run _ _, skips_archive (events_of (run records) w)).
Proof.
  unfold in_all_handlers. split_and!.
  - apply (shape_skips_archive _ _ _ _ _ _ (facility_follows records w)).
  - apply (shape_skips_archive _ _ _ _ _ _ (physicians_follows records w)).
  - apply (shape_skips_archive _ _ _ _ _ _ (clinical_fees_follows records w)).
  - apply (shape_skips_archive _ _ _ _ _ _ (dobi_follows records w)).
Qed.

(** X4.  A run on a non-empty batch that returns has sent, in this order
    and with nothing in between: the select on the handler's tag scope;
    when rows were live, their copies without ['id'] to the historical
    table and then the delete on the same scope; the insert of the batch
    into the live table; the log entry. *)
Theorem X4_runs_in_order `{Store} (records : list Dict) (w : world) :
  records ≠ [] →
  in_all_handlers
    (λ run _ f,
       runs_in_order f records (events_of (run records) w)
         (result_of (run records) w)).
Proof.
  intros Hrecords. unfold in_all_handlers. split_and!.
  - by apply (shape_runs_in_order _ _ _ _ _ _ (facility_follows records w)).
  - by apply (shape_runs_in_order _ _ _ _ _ _ (physicians_follows records w)).
  - by apply (shape_runs_in_order _ _ _ _ _ _ (clinical_fees_follows records w)).
  - by apply (shape_runs_in_order _ _ _ _ _ _ (dobi_follows records w)).
Qed.

Lemma X4_runs_in_order_witness :
  [new_row] ≠ []
  ∧ in_all_handlers
      (λ run _ f,
         runs_in_order f [new_row] (events_of (run [new_row]) calm)
           (result_of (run [new_row]) calm)).
Proof.
  split; [done|]. apply (X4_runs_in_order [new_row] calm). done.
Defined.

(** X5.  In every handler, [records_archived] of the summary of a run on
    a non-empty batch is the number of rows the initial select
    returned. *)
Theorem X5_archived_is_selected `{Store} (records : list Dict) (w : world) :
  records ≠ [] →
  in_all_handlers
    (λ run _ _,
       archived_is_selected (events_of (run records) w)
         (result_of (run records) w)).
Proof.
  intros Hrecords. unfold in_all_handlers. split_and!.
  - by apply (shape_archived_is_selected _ _ _ _ _ _ (facility_follows records w)).
  - by apply (shape_archived_is_selected _ _ _ _ _ _ (physicians_follows records w)).
  - by apply (shape_archived_is_selected _ _ _ _ _ _ (clinical_fees_follows records w)).
  - by apply (shape_archived_is_selected _ _ _ _ _ _ (dobi_follows records w)).
Qed.

Lemma X5_archived_is_selected_witness :
  [new_row] ≠ []
  ∧ in_all_handlers
      (λ run _ _,
         archived_is_selected (events_of (run [new_row]) calm)
           (result_of (run [new_row]) calm)).
Proof.
  split; [done|]. apply (X5_archived_is_selected [new_row] calm). done.
Defined.

(** X6.  The log entry of a run that returns says what the summary says:
    its message is the handler's log message for the summary's
    [records_archived] and [records_inserted], at the time of the run. *)
Theorem X6_log_agrees `{Store} (records : list Dict) (w : world) :
  records ≠ [] →
  in_all_handlers
    (λ run script _,
       log_agrees script (clock w) (events_of (run records) w)
         (result_of (run records) w)).
Proof.
  intros Hrecords. unfold in_all_handlers. split_and!.
  - by apply (shape_log_agrees _ _ _ _ _ _ (facility_follows records w)).
  - by apply (shape_log_agrees _ _ _ _ _ _ (physicians_follows records w)).
  - by apply (shape_log_agrees _ _ _ _ _ _ (clinical_fees_follows records w)).
  - by apply (shape_log_agrees _ _ _ _ _ _ (dobi_follows records w)).
Qed.

Lemma X6_log_agrees_witness :
  [new_row] ≠ []
  ∧ in_all_handlers
      (λ run script _,
         log_agrees script noon (events_of (run [new_row]) calm)
           (result_of (run [new_row]) calm)).
Proof.
  split; [done|]. apply (X6_log_agrees [new_row] calm). done.
Defined.

(** X7.  Fair Health Facility and Fair Health Physicians raise the very
    exception of the request that failed, and so does New Jersey DOBI
    when it is an [APIError]. *)
Theorem X7_failure_reraised `{Store} (records : list Dict) (w : world) :
  failure_reraised (λ _, true)
    (events_of (FairHealthFacility.insert_records records) w)
    (result_of (FairHealthFacility.insert_records records) w)
  ∧ failure_reraised (λ _, true)
      (events_of (FairHealthPhysicians.insert_records records) w)
      (result_of (FairHealthPhysicians.insert_records records) w)
  ∧ failure_reraised is_api_error
      (events_of (NewJerseyDOBI.insert_records records) w)
      (result_of (NewJerseyDOBI.insert_records records) w).
Proof.
  split_and!.
  - by apply (shape_failure_reraised _ _ _ _ _ _ (facility_follows records w)).
  - by apply (shape_failure_reraised _ _ _ _ _ _ (physicians_follows records w)).
  - apply (shape_failure_reraised _ _ _ _ _ _ (dobi_follows records w)).
    by intros [].
Qed.

(** X8.  A handler reads and deletes rows in the live table only; it
    sends lists of rows to the live and the historical table only, and
    single rows to the log table only.  So it never reads, changes or
    deletes what the historical and the log table hold. *)
Theorem X8_confined `{Store} (records : list Dict) (w : world) :
  in_all_handlers (λ run _ _, confined (events_of (run records) w)).
Proof.
  unfold in_all_handlers. split_and!.
  - apply (shape_confined _ _ _ _ _ _ (facility_follows records w)).
  - apply (shape_confined _ _ _ _ _ _ (physicians_follows records w)).
  - apply (shape_confined _ _ _ _ _ _ (clinical_fees_follows records w)).
  - apply (shape_confined _ _ _ _ _ _ (dobi_follows records w)).
Qed.

Lemma X2_stops_at_failure_witness :
  length (events_of (FairHealthFacility.insert_records [new_row]) archive_down)
  = 1 + 2.
Proof.
  apply (proj1 (X2_stops_at_failure [new_row] archive_down)
           1 (Insert archive_table (Rows [delete "id" old_row])) timed_out);
    reflexivity.
Defined.

Lemma X3_skips_archive_witness :
  events_of (MedicareClinicalFees.insert_records [new_row]) one_of_two !! 1
  = Some (Insert live_table (Rows [new_row]), Return [new_row])
  ∧ live_table ≠ archive_table.
Proof.
  split; [reflexivity|].
  apply (proj1 (proj2 (proj2 (X3_skips_archive [new_row] one_of_two)))
           (eq_ "data_type" MedicareClinicalFees.data_type) eq_refl
           1 (Insert live_table (Rows [new_row])) (Return [new_row])).
  reflexivity.
Defined.

Lemma X7_failure_reraised_witness :
  result_of (NewJerseyDOBI.insert_records [new_row])
    (scripted [Raise (APIError "permission denied" "" "" "42501")] noon)
  = Raise (APIError "permission denied" "" "" "42501").
Proof.
  apply (proj2 (proj2
           (X7_failure_reraised [new_row]
              (scripted [Raise (APIError "permission denied" "" "" "42501")] noon)))
           0 (Select live_table "*" (in_ "data_type" NewJerseyDOBI.data_types)));
    reflexivity.
Defined.

(** ** The handlers and the tables *)

Ltac replay :=
  crunch;
  first
  [ match goal with
    | |- context [0 <? length ?l] => is_var l; destruct l; replay
    | |- context [match ?e with APIError _ _ _ _ => _ | PyExc _ _ => _ end] =>
        is_var e; destruct e; replay
    | |- context [exec ?q ?s] =>
        destruct (exec q s) as [[?|?] ?] eqn:?; replay
    end
  | tidy; simpl; repeat (eexists; split; [eassumption|]); reflexivity ].

Lemma facility_replayed `{Store} : replayed FairHealthFacility.insert_records.
Proof.
  intros records [s0 tr con clk].
  unfold FairHealthFacility.insert_records, FairHealthFacility._log_operation,
    FairHealthFacility._create_log_message.
  destruct records; replay.
Qed.

Lemma physicians_replayed `{Store} : replayed FairHealthPhysicians.insert_records.
Proof.
  intros records [s0 tr con clk].
  unfold FairHealthPhysicians.insert_records, FairHealthPhysicians._log_operation,
    FairHealthPhysicians._create_log_message.
  destruct records; replay.
Qed.

Lemma clinical_fees_replayed `{Store} :
  replayed MedicareClinicalFees.insert_records.
Proof.
  intros records [s0 tr con clk].
  unfold MedicareClinicalFees.insert_records, MedicareClinicalFees._log_operation,
    MedicareClinicalFees._create_log_message.
  destruct records; replay.
Qed.

Lemma dobi_replayed `{Store} : replayed NewJerseyDOBI.insert_records.
Proof.
  intros records [s0 tr con clk].
  unfold NewJerseyDOBI.insert_records, NewJerseyDOBI._log_operation,
    NewJerseyDOBI._create_log_message.
  destruct records; replay.
Qed.

Lemma filter_none_all {A} (m : A → bool) (l : list A) :
  List.filter m l = [] → List.filter (λ a, negb (m a)) l = l.
Proof.
  induction l as [|a l IH]; simpl; [done|].
  destruct (m a); [done|]. intros Hl. simpl. by rewrite IH.
Qed.

Lemma copy_archived (rows copies : list Dict) (row : Dict) :
  Forall2 (⊆) (delete "id" <$> rows) copies → row ∈ rows →
  ∃ copy, copy ∈ copies ∧ delete "id" row ⊆ copy.
Proof.
  intros Hcopies [i Hi]%list_elem_of_lookup_1.
  destruct (Forall2_lookup_l _ _ _ i (delete "id" row) Hcopies)
    as (copy & Hcopy & Hsub).
  { by rewrite list_lookup_fmap, Hi. }
  exists copy. split; [by eapply list_elem_of_lookup_2|done].
Qed.

Lemma kept_or_copied (f : row_filter) (live copies : list Dict) (row : Dict) :
  Forall2 (⊆) (delete "id" <$> List.filter (matches f) live) copies →
  row ∈ live →
  row ∈ List.filter (λ row, negb (matches f row)) live
  ∨ ∃ copy, copy ∈ copies ∧ delete "id" row ⊆ copy.
Proof.
  intros Hcopies Hrow%list_elem_of_In.
  destruct (matches f row) eqn:Hm.
  - right. apply (copy_archived _ _ _ Hcopies).
    by apply list_elem_of_In, filter_In.
  - left. apply list_elem_of_In, filter_In. by rewrite Hm.
Qed.

Lemma scopes_disjoint (f g : row_filter) (row : Dict) :
  f ∈ scopes → g ∈ scopes → g ≠ f → matches g row = true →
  matches f row = false.
Proof.
  intros Hf%list_elem_of_In Hg%list_elem_of_In Hne Hm.
  simpl in Hf, Hg.
  destruct Hf as [<-|[<-|[<-|[<-|[]]]]];
    destruct Hg as [<-|[<-|[<-|[<-|[]]]]]; try done;
    unfold matches in *; simpl in *;
    destruct (row !! "data_type") as [[| | | |s]|]; try done;
    apply bool_decide_eq_true in Hm;
    try apply list_elem_of_In in Hm; simpl in Hm;
    repeat (destruct Hm as [<-|Hm]; [reflexivity|]); try done;
    by subst.
Qed.

Section tables.
Context `{TableStore}.
Variable P : profile.
Variable records : list Dict.
Variable t : string.
Variable evs : list event.
Variable lines : list string.
Variable out : outcome Dict.
Variables s s' : St.
Hypothesis Hshape : shape P records t (evs, lines, out).
Hypothesis Hreplay : replays s evs s'.

Ltac unroll :=
  simpl in Hreplay;
  repeat (let E := fresh "E" in destruct Hreplay as (? & E & Hreplay));
  subst s'.

Ltac laws :=
  repeat match goal with
  | E : exec _ _ = (Raise _, _) |- _ => apply failure_leaves in E as [? ?]
  | E : exec (Insert _ (Row _)) _ = _ |- _ => apply log_leaves in E as [? ?]
  | E : exec (Select _ _ _) _ = (Return _, _) |- _ =>
      apply select_returns in E as (? & ? & ?)
  | E : exec (Delete _ _) _ = (Return _, _) |- _ =>
      apply delete_removes in E as [? ?]
  | E : exec (Insert _ (Rows _)) _ = (Return _, _) |- _ =>
      first [ apply archive_appends in E as (? & ? & ? & ?)
            | apply insert_appends in E as (? & ? & ? & ?) ]
  end.

Ltac chase :=
  repeat match goal with
  | E : live_rows _ = _ |- _ => rewrite E
  | E : archived_rows _ = _ |- _ => rewrite E
  end.

Lemma shape_replaced_in (result : Dict) :
out = Return result → records ≠ [] →
replaced_in (p_filter P) records s s'.
Proof.
intros -> Hrecords. invert_shape Hshape; try done; unroll; laws.
- match goal with
  | Hsel : [] = List.filter _ _, F : Forall2 _ records ?stored |- _ =>
      exists stored, []; chase; rewrite <- Hsel, app_nil_r,
        (filter_none_all _ _ (eq_sym Hsel))
  end.
  split_and!; [done|done|done|constructor].
- match goal with
  | Hsel : _ :: _ = List.filter _ _, F : Forall2 _ records ?stored,
    C : Forall2 _ (records_for_history _) ?copies |- _ =>
      exists stored, copies; chase; rewrite <- Hsel;
        rewrite records_for_history_fmap in C
  end.
  by split_and!.
Qed.

Lemma shape_nothing_lost :
nothing_lost s s'.
Proof.
invert_shape Hshape; unroll; laws; split;
  try (exists []; chase; by rewrite app_nil_r);
  try (eexists; chase; reflexivity);
  intros row Hrow; chase;
  try (left; by rewrite ?elem_of_app; auto).
all: match goal with
  | Hsel : _ :: _ = List.filter (matches ?f) _,
    C : Forall2 _ (records_for_history _) ?copies |- _ =>
      rewrite records_for_history_fmap, Hsel in C;
      destruct (kept_or_copied _ _ _ row C Hrow) as [?|(copy & ? & ?)];
      [ left; rewrite ?elem_of_app; auto
      | right; exists copy; rewrite elem_of_app; auto ]
  end.
Qed.

Lemma shape_others_kept :
p_filter P ∈ scopes → others_kept (p_filter P) s s'.
Proof.
intros Hf g row Hg Hne Hrow Hm.
pose proof (scopes_disjoint _ _ row Hf Hg Hne Hm) as Hout.
assert (Hkept : row ∈ List.filter (λ row, negb (matches (p_filter P) row))
                        (live_rows s)).
{ apply list_elem_of_In, filter_In. split; [by apply list_elem_of_In|].
  by rewrite Hout. }
invert_shape Hshape; unroll; laws; chase; rewrite ?elem_of_app; auto.
Qed.

Lemma shape_early_failure_keeps_live :
early_failure_keeps_live evs s s'.
Proof.
intros i q e Hi Hq.
invert_shape Hshape; index i; try done; unroll; laws; by chase.
Qed.

Lemma shape_insert_failure_empties_scope :
insert_failure_empties_scope (p_filter P) evs s s'.
Proof.
intros i rows e Hi.
invert_shape Hshape; index i; unroll; laws; chase; try done.
match goal with
| Hsel : [] = List.filter _ _ |- _ =>
    by rewrite (filter_none_all _ _ (eq_sym Hsel))
end.
Qed.
End tables.

Lemma memory_tables : @TableStore MemoryStore.
Proof.
  refine {| live_rows := (m_live : @St MemoryStore → list Dict);
            archived_rows := (m_archive : @St MemoryStore → list Dict) |};
    simpl; unfold memory_exec;
    intros [live archive logs [|[fault|] faults]]; intros;
    repeat match goal with
    | q : request |- _ => destruct q as [? ? ?|? [?|?]|? ?]
    end;
    simpl in *; repeat case_bool_decide; simplify_eq/=; try done;
    (split; [done|]); eexists; (split; [done|]);
    apply Forall_Forall2_diag, Forall_true; done.
Defined.

(** X12.  A run that returns, on a non-empty batch, against a store that
    keeps tables: the live table then holds the rows that were out of
    the handler's scope, in their order, followed by the new rows as
    stored, and the historical table has gained the copies, without
    ['id'], of the rows that were in scope. *)
Theorem X12_replaces_scope `{TableStore} (records : list Dict) (w : world) :
  records ≠ [] →
  in_all_handlers
    (λ run _ f, ∀ result,
       result_of (run records) w = Return result →
       replaced_in f records (store w) (store (run records w).2)).
Proof.
  intros Hrecords. unfold in_all_handlers. split_and!; intros result Hresult.
  - exact (shape_replaced_in _ _ _ _ _ _ _ _ (facility_follows records w)
             (facility_replayed records w) result Hresult Hrecords).
  - exact (shape_replaced_in _ _ _ _ _ _ _ _ (physicians_follows records w)
             (physicians_replayed records w) result Hresult Hrecords).
  - exact (shape_replaced_in _ _ _ _ _ _ _ _ (clinical_fees_follows records w)
             (clinical_fees_replayed records w) result Hresult Hrecords).
  - exact (shape_replaced_in _ _ _ _ _ _ _ _ (dobi_follows records w)
             (dobi_replayed records w) result Hresult Hrecords).
Qed.

Lemma X12_replaces_scope_witness :
  [new_row] ≠ []
  ∧ result_of (FairHealthFacility.insert_records [new_row]) (two_scopes [])
    = Return (p_success facility 1 1)
  ∧ @replaced_in MemoryStore memory_tables
      (in_ "data_type" FairHealthFacility.data_types) [new_row]
      (store (two_scopes []))
      (store (FairHealthFacility.insert_records [new_row] (two_scopes [])).2).
Proof.
  assert (Hresult : result_of (FairHealthFacility.insert_records [new_row])
                      (two_scopes [])
                    = Return (p_success facility 1 1)) by reflexivity.
  split_and!; [done|done|].
  exact (proj1 (@X12_replaces_scope MemoryStore memory_tables [new_row]
                  (two_scopes []) ltac:(done)) _ Hresult).
Defined.

(** X13.  Whatever a run returns or raises, against a store that keeps
    tables no row is lost: a row that was live is still live or has its
    copy, without ['id'], in the historical table, and the historical
    table has only grown. *)
Theorem X13_nothing_lost `{TableStore} (records : list Dict) (w : world) :
  in_all_handlers
    (λ run _ _, nothing_lost (store w) (store (run records w).2)).
Proof.
  unfold in_all_handlers. split_and!.
  - exact (shape_nothing_lost _ _ _ _ _ _ _ _ (facility_follows records w)
             (facility_replayed records w)).
  - exact (shape_nothing_lost _ _ _ _ _ _ _ _ (physicians_follows records w)
             (physicians_replayed records w)).
  - exact (shape_nothing_lost _ _ _ _ _ _ _ _ (clinical_fees_follows records w)
             (clinical_fees_replayed records w)).
  - exact (shape_nothing_lost _ _ _ _ _ _ _ _ (dobi_follows records w)
             (dobi_replayed records w)).
Qed.

Lemma X13_nothing_lost_witness :
  @in_all_handlers MemoryStore
    (λ run _ _,
       @nothing_lost MemoryStore memory_tables
         (store (two_scopes [None; None; None; Some timed_out]))
         (store (run [new_row]
                   (two_scopes [None; None; None; Some timed_out])).2)).
Proof.
  apply (@X13_nothing_lost MemoryStore memory_tables [new_row]
           (two_scopes [None; None; None; Some timed_out])).
Defined.

(** X14.  A run of one handler, whatever its outcome, keeps the live
    rows that belong to the scopes of the other three handlers. *)
Theorem X14_others_kept `{TableStore} (records : list Dict) (w : world) :
  in_all_handlers
    (λ run _ f, others_kept f (store w) (store (run records w).2)).
Proof.
  unfold in_all_handlers. split_and!.
  - apply (shape_others_kept _ _ _ _ _ _ _ _ (facility_follows records w)
             (facility_replayed records w)).
    unfold scopes. set_solver.
  - apply (shape_others_kept _ _ _ _ _ _ _ _ (physicians_follows records w)
             (physicians_replayed records w)).
    unfold scopes. set_solver.
  - apply (shape_others_kept _ _ _ _ _ _ _ _ (clinical_fees_follows records w)
             (clinical_fees_replayed records w)).
    unfold scopes. set_solver.
  - apply (shape_others_kept _ _ _ _ _ _ _ _ (dobi_follows records w)
             (dobi_replayed records w)).
    unfold scopes. set_solver.
Qed.

Lemma X14_others_kept_witness :
  lab_row ∈ m_live (store (two_scopes []))
  ∧ lab_row
    ∈ m_live (store (FairHealthFacility.insert_records [new_row]
                       (two_scopes [])).2).
Proof.
  assert (Hlive : lab_row ∈ m_live (store (two_scopes []))).
  { apply list_elem_of_In. right. by left. }
  split; [done|].
  apply (proj1 (@X14_others_kept MemoryStore memory_tables [new_row]
                  (two_scopes []))
           (eq_ "data_type" MedicareClinicalFees.data_type) lab_row);
    [apply list_elem_of_In; simpl; auto|done|done|reflexivity].
Defined.

(** X15.  When the select, the insert into the historical table or the
    delete raises, the live table is left as it was. *)
Theorem X15_early_failure_keeps_live `{TableStore}
    (records : list Dict) (w : world) :
  in_all_handlers
    (λ run _ _,
       early_failure_keeps_live (events_of (run records) w)
         (store w) (store (run records w).2)).
Proof.
  unfold in_all_handlers. split_and!.
  - exact (shape_early_failure_keeps_live _ _ _ _ _ _ _ _
             (facility_follows records w) (facility_replayed records w)).
  - exact (shape_early_failure_keeps_live _ _ _ _ _ _ _ _
             (physicians_follows records w) (physicians_replayed records w)).
  - exact (shape_early_failure_keeps_live _ _ _ _ _ _ _ _
             (clinical_fees_follows records w)
             (clinical_fees_replayed records w)).
  - exact (shape_early_failure_keeps_live _ _ _ _ _ _ _ _
             (dobi_follows records w) (dobi_replayed records w)).
Qed.

Lemma X15_early_failure_keeps_live_witness :
  m_live (store (FairHealthFacility.insert_records [new_row]
                   (two_scopes [None; Some timed_out])).2)
  = [old_row; lab_row].
Proof.
  apply (proj1 (@X15_early_failure_keeps_live MemoryStore memory_tables
                  [new_row] (two_scopes [None; Some timed_out]))
           1 (Insert archive_table (Rows [delete "id" old_row])) timed_out);
    reflexivity.
Defined.

(** X16.  When the final insert raises, the live table is left without
    the rows of the handler's scope: they were deleted, the new rows
    are not there, and the run does not put the old rows back. *)
Theorem X16_insert_failure_empties_scope `{TableStore}
    (records : list Dict) (w : world) :
  in_all_handlers
    (λ run _ f,
       insert_failure_empties_scope f (events_of (run records) w)
         (store w) (store (run records w).2)).
Proof.
  unfold in_all_handlers. split_and!.
  - exact (shape_insert_failure_empties_scope _ _ _ _ _ _ _ _
             (facility_follows records w) (facility_replayed records w)).
  - exact (shape_insert_failure_empties_scope _ _ _ _ _ _ _ _
             (physicians_follows records w) (physicians_replayed records w)).
  - exact (shape_insert_failure_empties_scope _ _ _ _ _ _ _ _
             (clinical_fees_follows records w)
             (clinical_fees_replayed records w)).
  - exact (shape_insert_failure_empties_scope _ _ _ _ _ _ _ _
             (dobi_follows records w) (dobi_replayed records w)).
Qed.

Lemma X16_insert_failure_empties_scope_witness :
  m_live (store (FairHealthFacility.insert_records [new_row]
                   (two_scopes [None; None; None; Some timed_out])).2)
  = List.filter
      (λ row, negb (matches (in_ "data_type" FairHealthFacility.data_types) row))
      [old_row; lab_row].
Proof.
  apply (proj1 (@X16_insert_failure_empties_scope MemoryStore memory_tables
                  [new_row] (two_scopes [None; None; None; Some timed_out]))
           3 [new_row] timed_out).
  reflexivity.
Defined.

(** ** The constructors *)

Lemma not_false (v : option string) :
  not_ v = false ↔ ∃ s, v = Some s ∧ s ≠ "".
Proof.
  destruct v as [[|a s]|]; simpl; split; try done.
  - by intros (s & [= <-] & ?).
  - by exists (String a s).
  - by intros (s & ? & ?).
Qed.

Lemma credentials_checked (environ : gmap string string) :
  not_ (getenv environ "SUPABASE_URL") || not_ (getenv environ "SUPABASE_KEY")
  = false
  ↔ ∃ url key, credentials environ url key.
Proof.
  rewrite orb_false_iff, !not_false. unfold credentials, getenv.
  split.
  - intros [(url & ? & ?) (key & ? & ?)]. by exists url, key.
  - intros (url & key & ? & ? & ? & ?). split; eauto.
Qed.

(** X17.  Without credentials, that is when [SUPABASE_URL] or
    [SUPABASE_KEY] is unset or empty, each constructor raises
    [ValueError] and never calls [create_client]; the Physician one
    with a message of its own and without the ERROR line the other
    three print. *)
Theorem X17_no_credentials_no_client (Client : Type)
    (environ : gmap string string)
    (create_client : string → string → outcome Client) :
  (¬ ∃ url key, credentials environ url key) →
  refused (SupabaseHandlerFairHealth.__init__ Client environ create_client)
    "Missing Supabase credentials in environment variables"
    ["❌ Missing Supabase credentials. Ensure SUPABASE_URL and SUPABASE_KEY are in .env file."]
  ∧ refused (SupabaseHandlerPhysician.__init__ Client environ create_client)
      "SUPABASE_URL and SUPABASE_KEY must be set in environment variables" []
  ∧ refused (SupabaseHandlerCLFS.__init__ Client environ create_client)
      "Missing Supabase credentials in environment variables"
      ["❌ Missing Supabase credentials. Set SUPABASE_URL and SUPABASE_KEY in .env file."]
  ∧ refused (SupabaseHandler.__init__ Client environ create_client)
      "Missing Supabase credentials in environment variables"
      ["❌ Missing Supabase credentials. Ensure SUPABASE_URL and SUPABASE_KEY are in .env file."].
Proof.
  rewrite <- credentials_checked. intros Hmissing%not_false_is_true.
  unfold refused, SupabaseHandlerFairHealth.__init__,
    SupabaseHandlerPhysician.__init__, SupabaseHandlerCLFS.__init__,
    SupabaseHandler.__init__.
  cbv zeta. rewrite Hmissing. done.
Qed.

Lemma X17_no_credentials_no_client_witness :
  (¬ ∃ url key, credentials keyless_environ url key)
  ∧ refused
      (SupabaseHandlerPhysician.__init__ unit keyless_environ unreachable_service)
      "SUPABASE_URL and SUPABASE_KEY must be set in environment variables" [].
Proof.
  assert (Hkeyless : ¬ ∃ url key, credentials keyless_environ url key).
  { intros (url & key & _ & _ & Hkey & Hne).
    change (Some "" = Some key) in Hkey. by simplify_eq. }
  split; [done|].
  apply (X17_no_credentials_no_client unit keyless_environ unreachable_service
           Hkeyless).
Defined.

(** X18.  With both credentials set and not empty, each constructor
    calls [create_client] once, on the two of them, and ends as the call
    does: with a handler that holds the client made, or with the
    exception the call raised, unchanged, after one ERROR line that
    ends in its text. *)
Theorem X18_client_from_credentials (Client : Type)
    (environ : gmap string string)
    (create_client : string → string → outcome Client) (url key : string) :
  credentials environ url key →
  delegated (SupabaseHandlerFairHealth.__init__ Client environ create_client)
    (SupabaseHandlerFairHealth.client Client) url key (create_client url key)
  ∧ delegated (SupabaseHandlerPhysician.__init__ Client environ create_client)
      (SupabaseHandlerPhysician.client Client) url key (create_client url key)
  ∧ delegated (SupabaseHandlerCLFS.__init__ Client environ create_client)
      (SupabaseHandlerCLFS.client Client) url key (create_client url key)
  ∧ delegated (SupabaseHandler.__init__ Client environ create_client)
      (SupabaseHandler.client Client) url key (create_client url key).
Proof.
  intros Hcredentials.
  assert (Hchecked : not_ (getenv environ "SUPABASE_URL")
                     || not_ (getenv environ "SUPABASE_KEY") = false).
  { apply credentials_checked. by exists url, key. }
  destruct Hcredentials as (Hurl & _ & Hkey & _).
  unfold delegated, SupabaseHandlerFairHealth.__init__,
    SupabaseHandlerPhysician.__init__, SupabaseHandlerCLFS.__init__,
    SupabaseHandler.__init__.
  cbv zeta. rewrite Hchecked. unfold getenv. rewrite Hurl, Hkey. simpl.
  destruct (create_client url key) as [client|e]; simpl;
    split_and!; try done; by eexists.
Qed.

Lemma X18_client_from_credentials_witness :
  credentials sample_environ "https://db.example" "secret"
  ∧ delegated
      (SupabaseHandlerCLFS.__init__ unit sample_environ unreachable_service)
      (SupabaseHandlerCLFS.client unit) "https://db.example" "secret"
      (Raise timed_out).
Proof.
  assert (Hset : credentials sample_environ "https://db.example" "secret").
  { by split_and!. }
  split; [done|].
  apply (X18_client_from_credentials unit sample_environ unreachable_service
           "https://db.example" "secret" Hset).
Defined.
